(** * dc_federated.backend.dcf_server: the worker registry and the update relay

    A shallow embedding of [DCFServer] and [WorkerAuthenticator]
    (src/dc_federated/backend/dcf_server.py).  The handlers are state
    transformers over the server object, the application behind the five
    callbacks and a log of the callback invocations; a Python exception is
    the [Raise] outcome of a handler.  The libraries the module calls
    (zlib, libsodium through PyNaCl) are parameters of the development;
    SHA-224, hex decoding and the handlers themselves are executable. *)

From Stdlib Require Import ZArith Strings.Byte Ascii String List Lia.
From stdpp Require Import base decidable option list gmap sets strings pretty.

Local Open Scope Z_scope.

(** ** Python values *)

(** [bytes] objects. *)
Abbreviation bytes := (list byte).

Definition byte_to_Z (b : byte) : Z := Z.of_N (Byte.to_N b).

Definition byte_of_Z (z : Z) : byte :=
  match Byte.of_N (Z.to_N (z mod 256)) with
  | Some b => b
  | None => x00
  end.

(** [s.encode('utf-8')]: a [str] is kept as the bytes of its UTF-8 form. *)
Definition encode (s : string) : bytes := list_byte_of_string s.

(** ** hashlib.sha224 (FIPS 180-4) *)

Module SHA224.

Definition w32 (x : Z) : Z := x mod 2 ^ 32.
Definition add32 (x y : Z) : Z := w32 (x + y).
Definition rotr (n x : Z) : Z :=
  w32 (Z.lor (Z.shiftr x n) (Z.shiftl x (32 - n))).
Definition shr (n x : Z) : Z := Z.shiftr x n.
Definition not32 (x : Z) : Z := Z.lxor x 0xffffffff.

Definition Ch (x y z : Z) : Z := Z.lxor (Z.land x y) (Z.land (not32 x) z).
Definition Maj (x y z : Z) : Z :=
  Z.lxor (Z.lxor (Z.land x y) (Z.land x z)) (Z.land y z).
Definition Sigma0 (x : Z) : Z := Z.lxor (Z.lxor (rotr 2 x) (rotr 13 x)) (rotr 22 x).
Definition Sigma1 (x : Z) : Z := Z.lxor (Z.lxor (rotr 6 x) (rotr 11 x)) (rotr 25 x).
Definition sigma0 (x : Z) : Z := Z.lxor (Z.lxor (rotr 7 x) (rotr 18 x)) (shr 3 x).
Definition sigma1 (x : Z) : Z := Z.lxor (Z.lxor (rotr 17 x) (rotr 19 x)) (shr 10 x).

(** The constants are given as FIPS 180-4 defines them, from the first
    primes. *)
Definition is_prime (n : Z) : bool :=
  (1 <? n) && forallb (fun d => negb (n mod d =? 0)) (seqZ 2 (n - 2)).

Definition primes : list Z :=
  Eval vm_compute in List.filter is_prime (seqZ 2 310).

(** The largest [r] below [2 ^ bits] with [r ^ 3 <= n], bit by bit. *)
Fixpoint cube_root (n : Z) (bits : nat) (r : Z) : Z :=
  match bits with
  | O => r
  | S b =>
      let c := r + 2 ^ Z.of_nat b in
      cube_root n b (if c ^ 3 <=? n then c else r)
  end.

(** Section 4.2.2: the first 32 bits of the fractional parts of the cube
    roots of the first 64 primes. *)
Definition K : list Z :=
  Eval vm_compute in
  map (fun p => w32 (cube_root (p * 2 ^ 96) 36 0)) primes.

(** Section 5.3.2, the initial hash value of SHA-224: the second 32 bits
    of the fractional parts of the square roots of the 9th to the 16th
    prime. *)
Definition H0 : list Z :=
  Eval vm_compute in
  map (fun p => w32 (Z.sqrt (p * 2 ^ 128))) (take 8 (drop 8 primes)).

(** Big-endian bytes of the low [n] bytes of [x]. *)
Fixpoint be_bytes (n : nat) (x : Z) : list Z :=
  match n with
  | O => []
  | S n' => be_bytes n' (Z.shiftr x 8) ++ [x mod 256]
  end.

Definition be_word (bs : list Z) : Z :=
  fold_left (fun acc b => acc * 256 + b) bs 0.

(** Padding: 0x80, zeros up to 56 mod 64, the bit length on 8 bytes. *)
Definition pad (msg : list Z) : list Z :=
  let len := Z.of_nat (length msg) in
  let zeros := Z.to_nat ((55 - len) mod 64) in
  msg ++ [0x80] ++ repeat 0 zeros ++ be_bytes 8 (8 * len).

Fixpoint chunks (fuel : nat) (n : nat) (l : list Z) : list (list Z) :=
  match fuel with
  | O => []
  | S fuel' =>
      match l with
      | [] => []
      | _ => take n l :: chunks fuel' n (drop n l)
      end
  end.

Definition words (block : list Z) : list Z :=
  map be_word (chunks 16 4 block).

Definition nthZ (l : list Z) (i : nat) : Z := nth i l 0.

(** The message schedule, W_0 .. W_63. *)
Fixpoint schedule (n : nat) (w : list Z) : list Z :=
  match n with
  | O => w
  | S n' =>
      let t := length w in
      let x := add32 (add32 (sigma1 (nthZ w (t - 2))) (nthZ w (t - 7)))
                     (add32 (sigma0 (nthZ w (t - 15))) (nthZ w (t - 16))) in
      schedule n' (w ++ [x])
  end.

Definition round (s : list Z) (kw : Z * Z) : list Z :=
  match s with
  | [a; b; c; d; e; f; g; h] =>
      let t1 := add32 (add32 (add32 h (Sigma1 e)) (add32 (Ch e f g) (fst kw))) (snd kw) in
      let t2 := add32 (Sigma0 a) (Maj a b c) in
      [add32 t1 t2; a; b; c; add32 d t1; e; f; g]
  | _ => s
  end.

Definition compress (h : list Z) (block : list Z) : list Z :=
  let w := schedule 48 (words block) in
  let s := fold_left round (combine K w) h in
  zip_with add32 h s.

Definition digest_words (msg : list Z) : list Z :=
  let p := pad msg in
  fold_left compress (chunks (length p) 64 p) H0.

(** The 28-byte digest: the first seven words of the final state. *)
Definition digest (msg : bytes) : bytes :=
  map byte_of_Z
    (concat (map (be_bytes 4) (take 7 (digest_words (map byte_to_Z msg))))).

End SHA224.

(** Lower-case hexadecimal, as [hexdigest] prints it. *)
Definition hex_digit (n : Z) : ascii :=
  ascii_of_N (Z.to_N (if n <? 10 then 48 + n else 87 + n)).

Fixpoint hexlify (bs : bytes) : string :=
  match bs with
  | [] => EmptyString
  | b :: bs' =>
      let z := byte_to_Z b in
      String (hex_digit (z / 16)) (String (hex_digit (z mod 16)) (hexlify bs'))
  end.

(** [hashlib.sha224(data).hexdigest()] *)
Definition sha224_hexdigest (data : bytes) : string :=
  hexlify (SHA224.digest data).

(** ** binascii.unhexlify *)

Definition hex_value (b : byte) : option Z :=
  let z := byte_to_Z b in
  if (48 <=? z) && (z <=? 57) then Some (z - 48)
  else if (97 <=? z) && (z <=? 102) then Some (z - 87)
  else if (65 <=? z) && (z <=? 70) then Some (z - 55)
  else None.

Fixpoint unhex_pairs (hs : bytes) : option bytes :=
  match hs with
  | [] => Some []
  | [_] => None
  | hi :: lo :: hs' =>
      match hex_value hi, hex_value lo, unhex_pairs hs' with
      | Some h, Some l, Some out => Some (byte_of_Z (16 * h + l) :: out)
      | _, _, _ => None
      end
  end.

(** ** Exceptions and results *)

Inductive exn :=
| KeyError (key : string)
| AttributeError (msg : string)
| ValueError (msg : string)
| BinasciiError (msg : string)
| BadSignatureError (msg : string)
| ZlibError (code : Z) (zmsg : option string)
| CallbackError (msg : string)
| TypeError (msg : string).

(** [str(e)].  A [KeyError] prints the repr of its key (the keys here are
    the field names, without quotes or escapes); zlib's errors are
    formatted by zlibmodule.c as "Error %d while decompressing data: %s". *)
Definition str_exn (e : exn) : string :=
  match e with
  | KeyError key => "'" ++ key ++ "'"
  | AttributeError msg => msg
  | ValueError msg => msg
  | BinasciiError msg => msg
  | BadSignatureError msg => msg
  | ZlibError code zmsg =>
      "Error " ++ pretty code ++ " while decompressing data" ++
      match zmsg with
      | Some m => ": " ++ m
      | None => ""
      end
  | CallbackError msg => msg
  | TypeError msg => msg
  end%string.

Inductive pyres (A : Type) :=
| Ret (a : A)
| Raise (e : exn).
Arguments Ret {A} a.
Arguments Raise {A} e.

(** The values of a JSON request that the handlers look at (arrays,
    objects and non-integer numbers are left out). *)
Inductive jvalue :=
| JNull
| JBool (b : bool)
| JInt (n : Z)
| JStr (s : string).

(** What [json.dumps] is given: a dict literal, in the order of its keys,
    or the list of dicts of [admin_list_workers]. *)
Inductive json_doc :=
| JDict (items : list (string * jvalue))
| JList (dicts : list (list (string * jvalue))).

(** What a handler returns.  [PJson doc] is the str [json.dumps(doc)]. *)
Inductive pyval :=
| PNone
| PBool (b : bool)
| PStr (s : string)
| PBytes (b : bytes)
| PJson (doc : json_doc).

(** [str(v)], as an f-string formats it. *)
Definition py_str (v : jvalue) : string :=
  match v with
  | JNull => "None"
  | JBool true => "True"
  | JBool false => "False"
  | JInt n => pretty n
  | JStr s => s
  end%string.

Definition type_name (v : jvalue) : string :=
  match v with
  | JNull => "NoneType"
  | JBool _ => "bool"
  | JInt _ => "int"
  | JStr _ => "str"
  end%string.

(** [v == True] *)
Definition eq_True (v : jvalue) : bool :=
  match v with
  | JBool b => b
  | JInt n => n =? 1
  | _ => false
  end.

(** [d[key]] *)
Definition getitem {V : Type} (d : gmap string V) (key : string) : pyres V :=
  match d !! key with
  | Some v => Ret v
  | None => Raise (KeyError key)
  end.

(** [l.remove(x)]: the first occurrence goes (the callers test [x in l]). *)
Fixpoint list_remove (x : string) (l : list string) : list string :=
  match l with
  | [] => []
  | y :: l' => if decide (x = y) then l' else y :: list_remove x l'
  end.

(** ** dc_federated.backend._constants *)

(** Modelled from the spec: the module dc_federated.backend._constants is
    not among the sources.  The spec (section 6) names the two sentinels
    INVALID_WORKER and UNREGISTERED_WORKER; each is modelled by the string
    of its name. *)
Definition INVALID_WORKER : string := "INVALID_WORKER".
Definition UNREGISTERED_WORKER : string := "UNREGISTERED_WORKER".

(** Modelled from the spec: the names of the request fields, not among
    the sources either (section 6 of the spec and the docstring of
    [admin_add_worker]). *)
Definition PUBLIC_KEY_STR : string := "public_key_str".
Definition SIGNED_PHRASE : string := "signed_phrase".
Definition WORKER_ID_KEY : string := "worker_id".
Definition ID_AND_MODEL_KEY : string := "id_and_model".

(** Modelled from the spec: the two authentication types of
    dc_federated.backend._constants, the spec's AuthenticationMode
    ([NO_AUTHENTICATION] is Open, [AUTHENTICATED] is KeyRestricted). *)
Inductive auth_type :=
| NO_AUTHENTICATION
| AUTHENTICATED.

(** ** WorkerAuthenticator *)

(** A [nacl.signing.VerifyKey]: the 32 bytes of the public key. *)
Record VerifyKey := { key_bytes : bytes }.

Record WorkerAuthenticator := {
  authenticate : bool;
  keys : gmap string VerifyKey
}.

(** [HexEncoder.decode], that is [binascii.unhexlify]. *)
Definition HexEncoder_decode (data : bytes) : pyres bytes :=
  if Nat.odd (length data) then Raise (BinasciiError "Odd-length string")
  else
    match unhex_pairs data with
    | Some out => Ret out
    | None => Raise (BinasciiError "Non-hexadecimal digit found")
    end.

(** [VerifyKey(key, encoder=HexEncoder)] *)
Definition VerifyKey_init (key : bytes) : pyres VerifyKey :=
  match HexEncoder_decode key with
  | Raise e => Raise e
  | Ret raw =>
      if bool_decide (length raw = 32%nat) then Ret {| key_bytes := raw |}
      else Raise (ValueError "The key must be exactly 32 bytes long")
  end.

Fixpoint load_keys (lines : list string) : pyres (gmap string VerifyKey) :=
  match lines with
  | [] => Ret ∅
  | key :: lines' =>
      match VerifyKey_init (encode key) with
      | Raise e => Raise e
      | Ret vk =>
          match load_keys lines' with
          | Raise e => Raise e
          | Ret m => Ret (<[key := vk]> m)
          end
      end
  end.

(** [WorkerAuthenticator(key_list_file)]; the argument is the lines of the
    file, [None] when no file is given. *)
Definition WorkerAuthenticator_init (key_list_file : option (list string))
  : pyres WorkerAuthenticator :=
  match key_list_file with
  | None => Ret {| authenticate := false; keys := ∅ |}
  | Some lines =>
      match load_keys lines with
      | Raise e => Raise e
      | Ret m => Ret {| authenticate := true; keys := m |}
      end
  end.

(** ** DCFServer *)

Record DCFServer := {
  worker_authenticator : WorkerAuthenticator;
  worker_list : list string;
  active_workers : gset string
}.

(** [DCFServer(...)]: both collections start empty. *)
Definition DCFServer_init (auth : WorkerAuthenticator) : DCFServer :=
  {| worker_authenticator := auth; worker_list := []; active_workers := ∅ |}.

(** The invocations of the application's callbacks, in order. *)
Inductive call :=
| RegisterWorkerCallback (worker_id : string)
| UnregisterWorkerCallback (worker_id : string)
| ReturnGlobalModelCallback
| QueryGlobalModelStatusCallback
| ReceiveWorkerUpdateCallback (worker_id : string) (model_update : bytes).

(** The server object, the application behind the callbacks, and the log
    of the callbacks invoked so far. *)
Record World (App : Type) := {
  server : DCFServer;
  app : App;
  calls : list call
}.
Arguments server {App} w.
Arguments app {App} w.
Arguments calls {App} w.

(** [os.environ.get('ADMIN_USERNAME')] and [..('ADMIN_PASSWORD')] decide. *)
Definition is_admin (environ : gmap string string) (username password : string) : bool :=
  let adm_username := environ !! "ADMIN_USERNAME"%string in
  let adm_password := environ !! "ADMIN_PASSWORD"%string in
  match adm_username, adm_password with
  | Some u, Some p => bool_decide (username = u) && bool_decide (password = p)
  | _, _ => false
  end.

(** The requests of the eight routes.  [now] is [str(time.time())] as the
    handler reads it; [files] is [request.files], a part name mapped to the
    bytes its file reads. *)
Inductive request :=
| RegisterWorker (now : string) (worker_data : gmap string jvalue)
| AdminListWorkers
| AdminAddWorker (worker_data : gmap string jvalue)
| AdminDeleteWorker (worker_id : string)
| AdminSetWorkerStatus (worker_id : string) (worker_data : gmap string jvalue)
| ReceiveWorkerUpdate (worker_id : string) (files : gmap string bytes)
| QueryGlobalModelStatus (query_request : gmap string jvalue)
| ReturnGlobalModel (query_request : gmap string jvalue).

(** ** The application and the libraries *)

(** The application behind the server: its state [App] and the five
    callbacks given to [DCFServer(...)].  A callback returns or raises, and
    leaves the application in a new state. *)
Class Application (App : Type) := {
  register_worker_callback : string → App → pyres unit * App;
  unregister_worker_callback : string → App → pyres unit * App;
  return_global_model_callback : App → pyres bytes * App;
  query_global_model_status_callback : App → pyres pyval * App;
  receive_worker_update_callback : string → bytes → App → pyres pyval * App
}.

(** zlib and libsodium.  [zlib_inflate] gives the data, or the error code
    and message that [zlib.decompress] raises as [zlib.error];
    [crypto_sign_open signed pk] gives the message, or [None] where PyNaCl
    raises [BadSignatureError]. *)
Class Libraries := {
  zlib_inflate : bytes → (Z * option string) + bytes;
  zlib_compress : bytes → bytes;
  crypto_sign_open : bytes → bytes → option bytes
}.

Section Server.

Context `{Libraries} `{Application App}.

Definition zlib_decompress (data : bytes) : pyres bytes :=
  match zlib_inflate data with
  | inl (code, zmsg) => Raise (ZlibError code zmsg)
  | inr out => Ret out
  end.

(** [key.verify(smessage, encoder=HexEncoder)] *)
Definition VerifyKey_verify (key : VerifyKey) (smessage : bytes) : pyres bytes :=
  match HexEncoder_decode smessage with
  | Raise e => Raise e
  | Ret signed =>
      match crypto_sign_open signed (key_bytes key) with
      | Some message => Ret message
      | None => Raise (BadSignatureError "Signature was forged or corrupt")
      end
  end.

(** [signed_message.encode()] *)
Definition str_encode (v : jvalue) : pyres bytes :=
  match v with
  | JStr s => Ret (encode s)
  | _ => Raise (AttributeError
                  ("'" ++ type_name v ++ "' object has no attribute 'encode'"))
  end.

(** [public_key_str in self.keys], with the key found. *)
Definition keys_lookup (self : WorkerAuthenticator) (public_key_str : jvalue)
  : option VerifyKey :=
  match public_key_str with
  | JStr s => keys self !! s
  | _ => None
  end.

(** The body of the [try] of [authenticate_worker]: [Ret (Some r)] is its
    [return r], [Ret None] is falling off its end. *)
Definition authenticate_worker_try (self : WorkerAuthenticator)
    (public_key_str signed_message : jvalue) : pyres (option (bool * auth_type)) :=
  match keys_lookup self public_key_str with
  | None => Ret (Some (false, AUTHENTICATED))
  | Some key =>
      match str_encode signed_message with
      | Raise e => Raise e
      | Ret smessage =>
          match VerifyKey_verify key smessage with
          | Raise e => Raise e
          | Ret _ => Ret None
          end
      end
  end.

Definition authenticate_worker (self : WorkerAuthenticator)
    (public_key_str signed_message : jvalue) : pyres (bool * auth_type) :=
  if negb (authenticate self) then Ret (true, NO_AUTHENTICATION)
  else
    match authenticate_worker_try self public_key_str signed_message with
    | Ret (Some r) => Ret r
    | Raise (BadSignatureError _) => Ret (false, AUTHENTICATED)
    | Raise e => Raise e
    | Ret None => Ret (true, AUTHENTICATED)
    end.

(** *** The handlers' monad: state and exceptions *)

Definition M (A : Type) : Type := World App -> pyres A * World App.

Definition ret {A} (a : A) : M A := fun w => (Ret a, w).
Definition raise {A} (e : exn) : M A := fun w => (Raise e, w).
Definition lift {A} (r : pyres A) : M A := fun w => (r, w).
Definition bind {A B} (m : M A) (k : A -> M B) : M B :=
  fun w =>
    match m w with
    | (Ret a, w') => k a w'
    | (Raise e, w') => (Raise e, w')
    end.

Notation "'let*' x ':=' m 'in' k" := (bind m (fun x => k))
  (at level 10, x name, m at level 99, k at level 200).
Notation "m ;;; k" := (bind m (fun _ => k))
  (at level 100, k at level 200, right associativity).

(** [try: m  except Exception as e: return str(e)] *)
Definition try_except_str (m : M pyval) : M pyval :=
  fun w =>
    match m w with
    | (Ret v, w') => (Ret v, w')
    | (Raise e, w') => (Ret (PStr (str_exn e)), w')
    end.

Definition get_self : M DCFServer := fun w => (Ret (server w), w).

Definition put_self (s : DCFServer) : M unit :=
  fun w => (Ret tt, {| server := s; app := app w; calls := calls w |}).

Definition when (b : bool) (m : M unit) : M unit := if b then m else ret tt.

(** [self.worker_list.append(worker_id)] *)
Definition worker_list_append (worker_id : string) : M unit :=
  let* self := get_self in
  put_self {| worker_authenticator := worker_authenticator self;
              worker_list := worker_list self ++ [worker_id];
              active_workers := active_workers self |}.

(** [self.worker_list.remove(worker_id)] *)
Definition worker_list_remove (worker_id : string) : M unit :=
  let* self := get_self in
  put_self {| worker_authenticator := worker_authenticator self;
              worker_list := list_remove worker_id (worker_list self);
              active_workers := active_workers self |}.

(** [self.active_workers.add(worker_id)] *)
Definition active_workers_add (worker_id : string) : M unit :=
  let* self := get_self in
  put_self {| worker_authenticator := worker_authenticator self;
              worker_list := worker_list self;
              active_workers := {[worker_id]} ∪ active_workers self |}.

(** [self.active_workers.remove(worker_id)] (the callers test membership) *)
Definition active_workers_remove (worker_id : string) : M unit :=
  let* self := get_self in
  put_self {| worker_authenticator := worker_authenticator self;
              worker_list := worker_list self;
              active_workers := active_workers self ∖ {[worker_id]} |}.

(** A callback is run on the application and logged. *)
Definition invoke {A} (c : call) (f : App -> pyres A * App) : M A :=
  fun w =>
    let '(r, a) := f (app w) in
    (r, {| server := server w; app := a; calls := calls w ++ [c] |}).

Definition in_worker_list (worker_id : string) (self : DCFServer) : bool :=
  bool_decide (worker_id ∈ worker_list self).

Definition in_active_workers (worker_id : string) (self : DCFServer) : bool :=
  bool_decide (worker_id ∈ active_workers self).

(** The end of [register_worker], shared by its two branches. *)
Definition register_worker_finish (worker_id : string) : M pyval :=
  active_workers_add worker_id ;;;
  invoke (RegisterWorkerCallback worker_id) (register_worker_callback worker_id) ;;;
  ret (PStr worker_id).

Definition register_worker (now : string) (worker_data : gmap string jvalue) : M pyval :=
  let* public_key_str := lift (getitem worker_data PUBLIC_KEY_STR) in
  let* signed_phrase := lift (getitem worker_data SIGNED_PHRASE) in
  let* self := get_self in
  let* auth := lift (authenticate_worker (worker_authenticator self)
                  public_key_str signed_phrase) in
  let '(auth_success, auth_type) := auth in
  if negb auth_success then ret (PStr INVALID_WORKER)
  else
    match auth_type with
    | NO_AUTHENTICATION =>
        let worker_id :=
          (sha224_hexdigest (encode now) ++ "_unauthenticated")%string in
        when (negb (in_worker_list worker_id self)) (worker_list_append worker_id) ;;;
        register_worker_finish worker_id
    | AUTHENTICATED =>
        match public_key_str with
        | JStr worker_id =>
            if negb (in_worker_list worker_id self) then ret (PStr INVALID_WORKER)
            else register_worker_finish worker_id
        | _ => ret (PStr INVALID_WORKER)
        end
    end.

Definition worker_entry (self : DCFServer) (worker_id : string)
  : list (string * jvalue) :=
  [("worker_id"%string, JStr worker_id);
   ("active"%string, JBool (in_active_workers worker_id self))].

Definition admin_list_workers : M pyval :=
  let* self := get_self in
  ret (PJson (JList (map (worker_entry self) (worker_list self)))).

Definition error_payload (msg : string) : pyval :=
  PJson (JDict [("error"%string, JStr msg)]).

Definition admin_add_worker (worker_data : gmap string jvalue) : M pyval :=
  match worker_data !! PUBLIC_KEY_STR with
  | None => ret (error_payload "Public key was not not passed in input")
  | Some (JStr worker_id) =>
      if bool_decide (worker_id = ""%string)
      then ret (error_payload "Public key must be a string")
      else
        let* self := get_self in
        if in_worker_list worker_id self
        then ret (error_payload ("Worker " ++ worker_id ++ " already exists"))
        else
          worker_list_append worker_id ;;;
          when (match worker_data !! "active"%string with
                | Some v => eq_True v
                | None => false
                end)
               (active_workers_add worker_id ;;;
                invoke (RegisterWorkerCallback worker_id)
                       (register_worker_callback worker_id)) ;;;
          let* self := get_self in
          ret (PJson (JDict (worker_entry self worker_id)))
  | Some _ => ret (error_payload "Public key must be a string")
  end.

Definition admin_delete_worker (worker_id : string) : M pyval :=
  let* self := get_self in
  when (in_worker_list worker_id self) (worker_list_remove worker_id) ;;;
  let* self := get_self in
  when (in_active_workers worker_id self)
       (active_workers_remove worker_id ;;;
        invoke (UnregisterWorkerCallback worker_id)
               (unregister_worker_callback worker_id)) ;;;
  ret PNone.

Definition admin_set_worker_status (worker_id : string)
    (worker_data : gmap string jvalue) : M pyval :=
  match worker_data !! "active"%string with
  | None => ret (error_payload "Key 'active' is missing in payload")
  | Some (JBool active) =>
      let* self := get_self in
      if negb (in_worker_list worker_id self)
      then ret (error_payload ("Unknown worker: " ++ worker_id))
      else
        let prev_active := in_active_workers worker_id self in
        (if active && negb prev_active then
           active_workers_add worker_id ;;;
           invoke (RegisterWorkerCallback worker_id)
                  (register_worker_callback worker_id)
         else if negb active && prev_active then
           active_workers_remove worker_id ;;;
           invoke (UnregisterWorkerCallback worker_id)
                  (unregister_worker_callback worker_id)
         else ret tt) ;;;
        ret (PJson (JDict [("worker_id"%string, JStr worker_id);
                           ("active"%string, JBool active)]))
  | Some active =>
      ret (error_payload ("Key 'active' should be a boolean: " ++ py_str active))
  end.

Definition receive_worker_update (worker_id : string)
    (files : gmap string bytes) : M pyval :=
  try_except_str
    (let* data := lift (getitem files ID_AND_MODEL_KEY) in
     let* model_update := lift (zlib_decompress data) in
     let* self := get_self in
     if negb (in_worker_list worker_id self) then ret (PStr UNREGISTERED_WORKER)
     else if negb (in_active_workers worker_id self) then ret (PStr UNREGISTERED_WORKER)
     else invoke (ReceiveWorkerUpdateCallback worker_id model_update)
                 (receive_worker_update_callback worker_id model_update)).

(** The two membership tests of the status and model queries, on the
    value of the worker-id field: only a str is ever in the collections. *)
Definition registered (worker_id : jvalue) (self : DCFServer) : bool * bool :=
  match worker_id with
  | JStr s => (in_worker_list s self, in_active_workers s self)
  | _ => (false, false)
  end.

Definition query_global_model_status (query_request : gmap string jvalue) : M pyval :=
  try_except_str
    (match query_request !! WORKER_ID_KEY with
     | None => ret (PStr UNREGISTERED_WORKER)
     | Some worker_id =>
         let* self := get_self in
         if negb (fst (registered worker_id self)) then ret (PStr UNREGISTERED_WORKER)
         else if negb (snd (registered worker_id self)) then ret (PStr UNREGISTERED_WORKER)
         else invoke QueryGlobalModelStatusCallback query_global_model_status_callback
     end).

Definition return_global_model (query_request : gmap string jvalue) : M pyval :=
  try_except_str
    (match query_request !! WORKER_ID_KEY with
     | None => ret (PStr UNREGISTERED_WORKER)
     | Some worker_id =>
         let* self := get_self in
         if negb (fst (registered worker_id self)) then ret (PStr UNREGISTERED_WORKER)
         else if negb (snd (registered worker_id self)) then ret (PStr UNREGISTERED_WORKER)
         else
           let* model := invoke ReturnGlobalModelCallback return_global_model_callback in
           ret (PBytes (zlib_compress model))
     end).

(** One request, routed as [start_server] routes it. *)
Definition handle (r : request) : M pyval :=
  match r with
  | RegisterWorker now worker_data => register_worker now worker_data
  | AdminListWorkers => admin_list_workers
  | AdminAddWorker worker_data => admin_add_worker worker_data
  | AdminDeleteWorker worker_id => admin_delete_worker worker_id
  | AdminSetWorkerStatus worker_id worker_data =>
      admin_set_worker_status worker_id worker_data
  | ReceiveWorkerUpdate worker_id files => receive_worker_update worker_id files
  | QueryGlobalModelStatus query_request => query_global_model_status query_request
  | ReturnGlobalModel query_request => return_global_model query_request
  end.

(** The world after a sequence of requests; a request that raises leaves
    the world as the handler had it when the exception left it. *)
Definition run (rs : list request) (w : World App) : World App :=
  fold_left (fun w r => snd (handle r w)) rs w.

(** A server just constructed, before any request. *)
Definition start (auth : WorkerAuthenticator) (a : App) : World App :=
  {| server := DCFServer_init auth; app := a; calls := [] |}.

(** *** The state of the registry *)

(** What every registry state reached from [start] satisfies: no identity
    is listed twice, and the active ones are listed. *)
Definition registry_ok (self : DCFServer) : Prop :=
  NoDup (worker_list self) ∧
  ∀ i, i ∈ active_workers self → i ∈ worker_list self.

(** The identity minted from the clock reading [now]. *)
Definition minted (now : string) : string :=
  (sha224_hexdigest (encode now) ++ "_unauthenticated")%string.



(** *** What the callback log tells the application *)

(** The active set as the application can keep it from the callbacks: a
    worker joins on [RegisterWorkerCallback] and leaves on
    [UnregisterWorkerCallback]. *)
Definition track_active (act : gset string) (c : call) : gset string :=
  match c with
  | RegisterWorkerCallback i => {[i]} ∪ act
  | UnregisterWorkerCallback i => act ∖ {[i]}
  | _ => act
  end.

Definition active_from_calls (cs : list call) : gset string :=
  fold_left track_active cs ∅.

(** *** start_server: the routes and the admin gate *)

(** What a route answers: the handler's value, or bottle's [HTTPError]. *)
Inductive reply :=
| Body (v : pyval)
| HTTPError (status : Z) (text : string).

(** bottle's [auth_basic(check)(func)]; [auth] is [request.auth], the user
    and password of the Authorization header, [None] without one. *)
Definition auth_basic (check : string → string → bool)
    (auth : option (string * string)) (func : M pyval) : M reply :=
  match auth with
  | None => ret (HTTPError 401 "Access denied")
  | Some (user, password) =>
      if negb (check user password) then ret (HTTPError 401 "Access denied")
      else let* v := func in ret (Body v)
  end.

(** One request to the application that [start_server] sets up: the four
    worker routes go to their handlers, the four admin routes through
    [auth_basic(self.is_admin)]. *)
Definition start_server (environ : gmap string string)
    (auth : option (string * string)) (r : request) : M reply :=
  match r with
  | AdminListWorkers => auth_basic (is_admin environ) auth admin_list_workers
  | AdminAddWorker worker_data =>
      auth_basic (is_admin environ) auth (admin_add_worker worker_data)
  | AdminDeleteWorker worker_id =>
      auth_basic (is_admin environ) auth (admin_delete_worker worker_id)
  | AdminSetWorkerStatus worker_id worker_data =>
      auth_basic (is_admin environ) auth
        (admin_set_worker_status worker_id worker_data)
  | _ => let* v := handle r in ret (Body v)
  end.

(** The world after a sequence of requests, each with its credentials. *)
Definition serve (environ : gmap string string)
    (rs : list (option (string * string) * request)) (w : World App) : World App :=
  fold_left (fun w ar => snd (start_server environ (fst ar) (snd ar) w)) rs w.

(** What a callback invocation shows about the registry at that moment. *)
Definition invoked_on (self : DCFServer) (c : call) : Prop :=
  match c with
  | ReceiveWorkerUpdateCallback i _ =>
      i ∈ worker_list self ∧ i ∈ active_workers self
  | QueryGlobalModelStatusCallback | ReturnGlobalModelCallback =>
      ∃ i, i ∈ worker_list self ∧ i ∈ active_workers self
  | _ => True
  end.

(** The two facts about the log that every request keeps. *)
Definition log_ok (w : World App) : Prop :=
  active_workers (server w) = active_from_calls (calls w) ∧
  ∀ cs1 i b cs2,
    calls w = (cs1 ++ ReceiveWorkerUpdateCallback i b :: cs2)%list →
    i ∈ active_from_calls cs1.

(** The four routes behind [auth_basic(self.is_admin)]. *)
Definition admin_route (r : request) : bool :=
  match r with
  | AdminListWorkers | AdminAddWorker _ | AdminDeleteWorker _
  | AdminSetWorkerStatus _ _ => true
  | _ => false
  end.

(** The gate lets the credentials pass. *)
Definition admitted (environ : gmap string string)
    (auth : option (string * string)) : bool :=
  match auth with
  | Some (user, password) => is_admin environ user password
  | None => false
  end.

(** *** The handlers on any [request.json] *)

(** [request.json] as bottle gives it: a dict for a JSON object, a list for
    an array, a scalar otherwise; [JValue JNull] is None, which is what it
    is for a request without a JSON body and for the body null.  (The
    items of an array that are not scalars are never equal to a field name
    and are left out, like the non-integer numbers.) *)
Inductive json_body :=
| JValue (v : jvalue)
| JArray (items : list jvalue)
| JObject (d : gmap string jvalue).

(** [key in s] for two strings. *)
Fixpoint is_substring (key s : string) : bool :=
  String.prefix key s ||
  match s with
  | EmptyString => false
  | String _ s' => is_substring key s'
  end.

(** [key in body]; the messages are those of CPython 3.11. *)
Definition contains (key : string) (body : json_body) : pyres bool :=
  match body with
  | JObject d => Ret (bool_decide (is_Some (d !! key)))
  | JArray items =>
      Ret (existsb (λ v, if v is JStr s then bool_decide (s = key) else false) items)
  | JValue (JStr s) => Ret (is_substring key s)
  | JValue v =>
      Raise (TypeError ("argument of type '" ++ type_name v ++ "' is not iterable"))
  end.

(** [body[key]] *)
Definition subscript (body : json_body) (key : string) : pyres jvalue :=
  match body with
  | JObject d => getitem d key
  | JArray _ => Raise (TypeError "list indices must be integers or slices, not str")
  | JValue (JStr _) => Raise (TypeError "string indices must be integers, not 'str'")
  | JValue v => Raise (TypeError ("'" ++ type_name v ++ "' object is not subscriptable"))
  end.

Definition register_worker_json (now : string) (worker_data : json_body) : M pyval :=
  let* public_key_str := lift (subscript worker_data PUBLIC_KEY_STR) in
  let* signed_phrase := lift (subscript worker_data SIGNED_PHRASE) in
  let* self := get_self in
  let* auth := lift (authenticate_worker (worker_authenticator self)
                       public_key_str signed_phrase) in
  let '(auth_success, auth_type) := auth in
  if negb auth_success then ret (PStr INVALID_WORKER)
  else
    match auth_type with
    | NO_AUTHENTICATION =>
        let worker_id :=
          (sha224_hexdigest (encode now) ++ "_unauthenticated")%string in
        when (negb (in_worker_list worker_id self)) (worker_list_append worker_id) ;;;
        register_worker_finish worker_id
    | AUTHENTICATED =>
        match public_key_str with
        | JStr worker_id =>
            if negb (in_worker_list worker_id self) then ret (PStr INVALID_WORKER)
            else register_worker_finish worker_id
        | _ => ret (PStr INVALID_WORKER)
        end
    end.

Definition admin_add_worker_json (worker_data : json_body) : M pyval :=
  let* present := lift (contains PUBLIC_KEY_STR worker_data) in
  if negb present
  then ret (error_payload "Public key was not not passed in input")
  else
    let* worker_id := lift (subscript worker_data PUBLIC_KEY_STR) in
    match worker_id with
    | JStr worker_id =>
        if bool_decide (worker_id = ""%string)
        then ret (error_payload "Public key must be a string")
        else
          let* self := get_self in
          if in_worker_list worker_id self
          then ret (error_payload ("Worker " ++ worker_id ++ " already exists"))
          else
            worker_list_append worker_id ;;;
            let* active_present := lift (contains "active" worker_data) in
            let* activate :=
              (if active_present
               then let* active := lift (subscript worker_data "active") in
                    ret (eq_True active)
               else ret false) in
            when activate
                 (active_workers_add worker_id ;;;
                  invoke (RegisterWorkerCallback worker_id)
                         (register_worker_callback worker_id)) ;;;
            let* self := get_self in
            ret (PJson (JDict (worker_entry self worker_id)))
    | _ => ret (error_payload "Public key must be a string")
    end.

Definition admin_set_worker_status_json (worker_id : string)
    (worker_data : json_body) : M pyval :=
  let* present := lift (contains "active" worker_data) in
  if negb present
  then ret (error_payload "Key 'active' is missing in payload")
  else
    let* active := lift (subscript worker_data "active") in
    match active with
    | JBool active =>
        let* self := get_self in
        if negb (in_worker_list worker_id self)
        then ret (error_payload ("Unknown worker: " ++ worker_id))
        else
          let prev_active := in_active_workers worker_id self in
          (if active && negb prev_active then
             active_workers_add worker_id ;;;
             invoke (RegisterWorkerCallback worker_id)
                    (register_worker_callback worker_id)
           else if negb active && prev_active then
             active_workers_remove worker_id ;;;
             invoke (UnregisterWorkerCallback worker_id)
                    (unregister_worker_callback worker_id)
           else ret tt) ;;;
          ret (PJson (JDict [("worker_id"%string, JStr worker_id);
                             ("active"%string, JBool active)]))
    | _ =>
        ret (error_payload ("Key 'active' should be a boolean: " ++ py_str active))
    end.

Definition query_global_model_status_json (query_request : json_body) : M pyval :=
  try_except_str
    (let* present := lift (contains WORKER_ID_KEY query_request) in
     if negb present then ret (PStr UNREGISTERED_WORKER)
     else
       let* worker_id := lift (subscript query_request WORKER_ID_KEY) in
       let* self := get_self in
       if negb (fst (registered worker_id self)) then ret (PStr UNREGISTERED_WORKER)
       else if negb (snd (registered worker_id self)) then ret (PStr UNREGISTERED_WORKER)
       else invoke QueryGlobalModelStatusCallback query_global_model_status_callback).

Definition return_global_model_json (query_request : json_body) : M pyval :=
  try_except_str
    (let* present := lift (contains WORKER_ID_KEY query_request) in
     if negb present then ret (PStr UNREGISTERED_WORKER)
     else
       let* worker_id := lift (subscript query_request WORKER_ID_KEY) in
       let* self := get_self in
       if negb (fst (registered worker_id self)) then ret (PStr UNREGISTERED_WORKER)
       else if negb (snd (registered worker_id self)) then ret (PStr UNREGISTERED_WORKER)
       else
         let* model := invoke ReturnGlobalModelCallback return_global_model_callback in
         ret (PBytes (zlib_compress model))).



End Server.

(** ** An application and library stand-ins, to run the handlers

    One choice of the application and of the libraries, on which the
    examples at the end of the file are run: an application whose model is
    the empty payload and that counts the updates it is given. *)

Module Demo.

(** The application state: the number of updates received. *)
Definition App : Type := nat.

#[global] Instance application : Application App := {|
  register_worker_callback := λ worker_id a, (Ret tt, a);
  unregister_worker_callback := λ worker_id a, (Ret tt, a);
  return_global_model_callback := λ a, (Ret [], a);
  query_global_model_status_callback :=
    λ a, (Ret (PStr (pretty (Z.of_nat a))), a);
  receive_worker_update_callback :=
    λ worker_id model_update a, (Ret (PStr "Worker update received"), S a)
|}.

(** zlib on the two streams the examples send: [zlib.compress(b'')] is
    78 9c 03 00 00 00 00 01, and the empty stream is a truncated one
    (Z_BUF_ERROR, -5).  Other streams are not exchanged; they are
    answered as a stream with a bad header is (Z_DATA_ERROR, -3). *)
Definition empty_stream : bytes := [x78; x9c; x03; x00; x00; x00; x00; x01].

Definition inflate (data : bytes) : (Z * option string) + bytes :=
  match data with
  | [] => inl (-5, Some "incomplete or truncated stream"%string)
  | [x78; x9c; x03; x00; x00; x00; x00; x01] => inr []
  | _ => inl (-3, Some "incorrect header check"%string)
  end.

(** The libraries: the zlib above, and a libsodium that takes no signed
    message for genuine. *)
#[global] Instance libraries : Libraries := {|
  zlib_inflate := inflate;
  zlib_compress := λ data, empty_stream;
  crypto_sign_open := λ signed pk, None
|}.

(** A key file of one line. *)
Definition K : string :=
  "3d4017c3e843895a92b70aa74d1b7ebc9c982ccf2ec4968cc0cd55f12af4660c".

Definition key_file : list string := [K].

(** The authenticator that [WorkerAuthenticator(key_file)] builds. *)
Definition verify_key : VerifyKey :=
  {| key_bytes :=
      [ x3d; x40; x17; xc3; xe8; x43; x89; x5a;
        x92; xb7; x0a; xa7; x4d; x1b; x7e; xbc;
        x9c; x98; x2c; xcf; x2e; xc4; x96; x8c;
        xc0; xcd; x55; xf1; x2a; xf4; x66; x0c ] |}.

Definition authenticator : WorkerAuthenticator :=
  {| authenticate := true; keys := {[ K := verify_key ]} |}.

(** The server started without a key file, and the one started with
    [key_file], before any request. *)
Definition open_world : World App :=
  start {| authenticate := false; keys := ∅ |} O.

Definition restricted_world : World App := start authenticator O.

(** The bodies of the requests. *)
Definition registration : gmap string jvalue :=
  {[ PUBLIC_KEY_STR := JStr K; SIGNED_PHRASE := JStr "00" ]}.

Definition add_body (worker_id : string) (active : bool) : gmap string jvalue :=
  {[ PUBLIC_KEY_STR := JStr worker_id; "active"%string := JBool active ]}.

Definition status_body (active : bool) : gmap string jvalue :=
  {[ "active"%string := JBool active ]}.

Definition query_body (worker_id : string) : gmap string jvalue :=
  {[ WORKER_ID_KEY := JStr worker_id ]}.

Definition upload (data : bytes) : gmap string bytes :=
  {[ ID_AND_MODEL_KEY := data ]}.

(** The worker "w1" added by the administrator, inactive and active. *)
Definition inactive_w1 : World App :=
  run [AdminAddWorker (add_body "w1" false)] open_world.

Definition active_w1 : World App :=
  run [AdminAddWorker (add_body "w1" true)] open_world.

(** A libsodium that takes every signed message for genuine: the message
    is what follows the 64 bytes of the signature.  It is not an instance:
    the examples that need it name it. *)
Definition credulous : Libraries := {|
  zlib_inflate := inflate;
  zlib_compress := λ data, empty_stream;
  crypto_sign_open := λ signed pk, Some (drop 64 signed)
|}.

(** The server started with [key_file], after the administrator added the
    worker of key [K], inactive. *)
Definition provisioned : World App :=
  run [AdminAddWorker (add_body K false)] restricted_world.

(** A clock reading. *)
Definition now : string := "1604448000.1234567".

End Demo.

(** ** Properties *)

(** SHA-224 on the test vectors of FIPS 180-4, and on a message of two
    blocks. *)
Example sha224_empty :
  sha224_hexdigest [] =
  "d14a028c2a3a2bc9476102bb288234c415a2b01f828ea62ac5b3e42f"%string.
Proof. vm_compute. reflexivity. Qed.

Example sha224_abc :
  sha224_hexdigest (encode "abc") =
  "23097d223405d8228642a477bda255b32aadbce4bda0b3f7e36c9da7"%string.
Proof. vm_compute. reflexivity. Qed.

Example sha224_two_blocks :
  sha224_hexdigest (encode (String.concat "" (repeat "a"%string 70))) =
  "e93442db5dbc03ad472bff5a35eae527f9ba128d507cc31e2b31ae2a"%string.
Proof. vm_compute. reflexivity. Qed.

Example sha224_constants :
  length SHA224.primes = 64%nat ∧
  take 2 SHA224.K = [0x428a2f98; 0x71374491] ∧
  last SHA224.K = Some 0xc67178f2 ∧
  take 2 SHA224.H0 = [0xc1059ed8; 0x367cd507] ∧
  last SHA224.H0 = Some 0xbefa4fa4.
Proof. vm_compute. repeat split. Qed.

Example unhex_pairs_ok : unhex_pairs (encode "0aFf") = Some [x0a; xff].
Proof. reflexivity. Qed.

Section Properties.

Context `{Libraries} `{Application App}.

Ltac bool_hyps :=
  repeat match goal with
    | H : negb _ = true |- _ => apply negb_true_iff in H
    | H : negb _ = false |- _ => apply negb_false_iff in H
    | H : bool_decide _ = true |- _ => apply bool_decide_eq_true in H
    | H : bool_decide _ = false |- _ => apply bool_decide_eq_false in H
    | H : _ && _ = true |- _ => apply andb_true_iff in H; destruct H
    end.

Ltac unfold_handlers :=
  unfold handle, register_worker, register_worker_finish, admin_list_workers,
    admin_add_worker, admin_delete_worker, admin_set_worker_status,
    receive_worker_update, query_global_model_status, return_global_model,
    try_except_str, worker_list_append, worker_list_remove,
    active_workers_add, active_workers_remove, invoke, when, bind, ret,
    raise, lift, get_self, put_self, registered, getitem, zlib_decompress,
    in_worker_list, in_active_workers in *.

Lemma list_remove_elem_of (x y : string) (l : list string) :
  y ∈ list_remove x l → y ∈ l.
Proof.
  induction l as [|z l IH]; simpl; [done|].
  destruct (decide (x = z)) as [->|Hne].
  - intros Hy. by apply elem_of_cons; right.
  - intros [->|Hy]%elem_of_cons; apply elem_of_cons; auto.
Qed.

Lemma list_remove_elem_of_ne (x y : string) (l : list string) :
  x ≠ y → y ∈ l → y ∈ list_remove x l.
Proof.
  intros Hne. induction l as [|z l IH]; simpl; [done|].
  intros [->|Hy]%elem_of_cons.
  - destruct (decide (x = z)) as [->|_]; [done|]. by apply elem_of_cons; left.
  - destruct (decide (x = z)) as [->|_]; [done|]. apply elem_of_cons; auto.
Qed.

Lemma list_remove_NoDup (x : string) (l : list string) :
  NoDup l → NoDup (list_remove x l).
Proof.
  induction 1 as [|z l Hz Hl IH]; simpl; [constructor|].
  destruct (decide (x = z)); [done|].
  constructor; [|done].
  intros Hin. apply Hz. by eapply list_remove_elem_of.
Qed.


Lemma list_remove_absent (x : string) (l : list string) :
  x ∉ l → list_remove x l = l.
Proof.
  induction l as [|z l IH]; simpl; [done|].
  intros Hx. destruct (decide (x = z)) as [->|Hne].
  - exfalso. apply Hx. by apply elem_of_cons; left.
  - f_equal. apply IH. intros Hin. apply Hx. by apply elem_of_cons; right.
Qed.

Lemma registry_ok_append (auth : WorkerAuthenticator) (l : list string)
    (act : gset string) (i : string) :
  i ∉ l →
  registry_ok {| worker_authenticator := auth; worker_list := l; active_workers := act |} →
  registry_ok {| worker_authenticator := auth; worker_list := l ++ [i];
                 active_workers := act |}.
Proof.
  intros Hi [Hnd Hsub]; simpl in *. split; simpl.
  - apply NoDup_app. split_and!; [done| |apply NoDup_singleton].
    intros x Hx ->%list_elem_of_singleton. done.
  - intros j Hj. apply elem_of_app. left. auto.
Qed.

Lemma registry_ok_append_active (auth : WorkerAuthenticator) (l : list string)
    (act : gset string) (i : string) :
  i ∉ l →
  registry_ok {| worker_authenticator := auth; worker_list := l; active_workers := act |} →
  registry_ok {| worker_authenticator := auth; worker_list := l ++ [i];
                 active_workers := {[i]} ∪ act |}.
Proof.
  intros Hi Hok. destruct (registry_ok_append auth l act i Hi Hok) as [Hnd Hsub].
  split; simpl in *; [done|].
  intros j [->%elem_of_singleton|Hj]%elem_of_union; [|auto].
  apply elem_of_app. right. by apply list_elem_of_singleton.
Qed.

Lemma registry_ok_activate (auth : WorkerAuthenticator) (l : list string)
    (act : gset string) (i : string) :
  i ∈ l →
  registry_ok {| worker_authenticator := auth; worker_list := l; active_workers := act |} →
  registry_ok {| worker_authenticator := auth; worker_list := l;
                 active_workers := {[i]} ∪ act |}.
Proof.
  intros Hi [Hnd Hsub]; split; simpl in *; [done|].
  intros j [->%elem_of_singleton|Hj]%elem_of_union; auto.
Qed.

Lemma registry_ok_deactivate (auth : WorkerAuthenticator) (l : list string)
    (act : gset string) (i : string) :
  registry_ok {| worker_authenticator := auth; worker_list := l; active_workers := act |} →
  registry_ok {| worker_authenticator := auth; worker_list := l;
                 active_workers := act ∖ {[i]} |}.
Proof.
  intros [Hnd Hsub]; split; simpl in *; [done|].
  intros j [Hj _]%elem_of_difference; auto.
Qed.

Lemma registry_ok_remove (auth : WorkerAuthenticator) (l : list string)
    (act : gset string) (i : string) :
  registry_ok {| worker_authenticator := auth; worker_list := l; active_workers := act |} →
  registry_ok {| worker_authenticator := auth; worker_list := list_remove i l;
                 active_workers := act ∖ {[i]} |}.
Proof.
  intros [Hnd Hsub]; split; simpl in *; [by apply list_remove_NoDup|].
  intros j [Hj Hne]%elem_of_difference.
  apply list_remove_elem_of_ne; [set_solver|auto].
Qed.

Lemma registry_ok_remove_inactive (auth : WorkerAuthenticator) (l : list string)
    (act : gset string) (i : string) :
  i ∉ act →
  registry_ok {| worker_authenticator := auth; worker_list := l; active_workers := act |} →
  registry_ok {| worker_authenticator := auth; worker_list := list_remove i l;
                 active_workers := act |}.
Proof.
  intros Hi [Hnd Hsub]; split; simpl in *; [by apply list_remove_NoDup|].
  intros j Hj. apply list_remove_elem_of_ne; [|auto].
  intros ->. done.
Qed.

Lemma registry_ok_start (auth : WorkerAuthenticator) :
  registry_ok (DCFServer_init auth).
Proof. split; simpl; [constructor|set_solver]. Qed.

(** Every handler keeps [registry_ok], whatever it returns or raises. *)
Lemma handle_registry_ok (r : request) (w : World App) :
  registry_ok (server w) → registry_ok (server (snd (handle r w))).
Proof.
  destruct w as [[auth l act] a cs]; intros Hok.
  destruct r; unfold_handlers; simpl in *.
  all: repeat (case_match; simplify_eq/=); try done.
  all: bool_hyps;
    first [ by apply registry_ok_append_active
          | by apply registry_ok_append
          | by apply registry_ok_activate
          | by apply registry_ok_remove
          | by apply registry_ok_remove_inactive
          | by apply registry_ok_deactivate ].
Qed.

Lemma run_cons (r : request) (rs : list request) (w : World App) :
  run (r :: rs) w = run rs (snd (handle r w)).
Proof. reflexivity. Qed.

Lemma run_registry_ok (rs : list request) (w : World App) :
  registry_ok (server w) → registry_ok (server (run rs w)).
Proof.
  revert w. induction rs as [|r rs IH]; intros w Hok; [done|].
  rewrite run_cons. apply IH. by apply handle_registry_ok.
Qed.

(** C1.  After any sequence of requests to a server started with empty
    collections, an identity in [active_workers] is in [worker_list]. *)
Theorem active_implies_known (auth : WorkerAuthenticator) (a : App)
    (rs : list request) (i : string) :
  i ∈ active_workers (server (run rs (start auth a))) →
  i ∈ worker_list (server (run rs (start auth a))).
Proof.
  apply (run_registry_ok rs (start auth a)). apply registry_ok_start.
Qed.

(** *** The relay *)

(** C2, as amended.  For an identity that is listed but not active, the
    status query and the model query return [UNREGISTERED_WORKER]; the
    update returns it when its payload decompresses; and none of the three
    changes the world: no callback is invoked. *)
Theorem relay_refuses_inactive (w : World App) (i : string)
    (q : gmap string jvalue) (files : gmap string bytes) :
  i ∈ worker_list (server w) →
  i ∉ active_workers (server w) →
  q !! WORKER_ID_KEY = Some (JStr i) →
  query_global_model_status q w = (Ret (PStr UNREGISTERED_WORKER), w) ∧
  return_global_model q w = (Ret (PStr UNREGISTERED_WORKER), w) ∧
  snd (receive_worker_update i files w) = w ∧
  (∀ data out,
      files !! ID_AND_MODEL_KEY = Some data →
      zlib_inflate data = inr out →
      receive_worker_update i files w = (Ret (PStr UNREGISTERED_WORKER), w)).
Proof.
  intros Hin Hact Hq.
  unfold_handlers. rewrite Hq. simpl.
  rewrite (bool_decide_eq_true_2 _ Hin), (bool_decide_eq_false_2 _ Hact). simpl.
  split_and!; try done.
  - destruct (files !! ID_AND_MODEL_KEY) as [data|]; simpl; [|done].
    by destruct (zlib_inflate data) as [[code zmsg]|out].
  - intros data out Hdata Hout.
    rewrite Hdata; simpl. by rewrite Hout.
Qed.

(** The text of a zlib error is never the sentinel. *)
Lemma zlib_error_text_not_sentinel (code : Z) (zmsg : option string) :
  str_exn (ZlibError code zmsg) ≠ UNREGISTERED_WORKER.
Proof. simpl. unfold UNREGISTERED_WORKER. discriminate. Qed.

(** C10.  [receive_worker_update] decompresses before it looks at the
    collections: whoever the identity, a payload that zlib rejects gives
    the text of zlib's error, which is not [UNREGISTERED_WORKER], with the
    world unchanged; and [UNREGISTERED_WORKER] is returned only when the
    payload was there and decompressed. *)
Theorem receive_worker_update_decompresses_first (w : World App) (i : string)
    (files : gmap string bytes) :
  (∀ data code zmsg,
      files !! ID_AND_MODEL_KEY = Some data →
      zlib_inflate data = inl (code, zmsg) →
      receive_worker_update i files w = (Ret (PStr (str_exn (ZlibError code zmsg))), w) ∧
      str_exn (ZlibError code zmsg) ≠ UNREGISTERED_WORKER) ∧
  (fst (receive_worker_update i files w) = Ret (PStr UNREGISTERED_WORKER) →
   ∃ data out, files !! ID_AND_MODEL_KEY = Some data ∧ zlib_inflate data = inr out).
Proof.
  split.
  - intros data code zmsg Hdata Herr. split; [|apply zlib_error_text_not_sentinel].
    unfold_handlers.
    rewrite Hdata; simpl. by rewrite Herr.
  - unfold_handlers.
    destruct (files !! ID_AND_MODEL_KEY) as [data|]; simpl.
    + destruct (zlib_inflate data) as [[code zmsg]|out] eqn:Hz; simpl.
      * intros Heq. exfalso.
        apply (zlib_error_text_not_sentinel code zmsg).
        by inversion Heq.
      * intros _. by exists data, out.
    + unfold ID_AND_MODEL_KEY, UNREGISTERED_WORKER. discriminate.
Qed.

(** *** The authenticator *)

Lemma HexEncoder_decode_raises (data : bytes) (e : exn) :
  HexEncoder_decode data = Raise e → ∃ msg, e = BinasciiError msg.
Proof.
  unfold HexEncoder_decode. repeat case_match; intros [= <-]; eauto.
Qed.

Lemma authenticate_worker_open (self : WorkerAuthenticator) (pk sm : jvalue) :
  authenticate self = false →
  authenticate_worker self pk sm = Ret (true, NO_AUTHENTICATION).
Proof. unfold authenticate_worker. by intros ->. Qed.


(** With a listed key and a signed message that is a str: the outcome is
    libsodium's verdict when the message is hexadecimal, and the
    [binascii.Error] of the decoding when it is not. *)
Lemma authenticate_worker_listed (self : WorkerAuthenticator) (k s : string)
    (key : VerifyKey) :
  authenticate self = true →
  keys self !! k = Some key →
  authenticate_worker self (JStr k) (JStr s) =
    match HexEncoder_decode (encode s) with
    | Raise e => Raise e
    | Ret signed =>
        Ret (if crypto_sign_open signed (key_bytes key) is Some _ then true else false,
             AUTHENTICATED)
    end.
Proof.
  intros Hauth Hkey.
  unfold authenticate_worker, authenticate_worker_try, VerifyKey_verify.
  rewrite Hauth; simpl. rewrite Hkey.
  destruct (HexEncoder_decode (encode s)) as [signed|e] eqn:Hdec.
  - by destruct (crypto_sign_open signed (key_bytes key)) as [m|].
  - apply HexEncoder_decode_raises in Hdec as [msg ->]. done.
Qed.

(** C3.  The authenticator built from a key file that lists [Demo.K],
    asked about [Demo.K] and the signed message "zz": the exception of
    the hex decoding leaves [authenticate_worker]; (False, AUTHENTICATED)
    is not returned. *)
Theorem authenticate_worker_raises_on_bad_hex :
  WorkerAuthenticator_init (Some Demo.key_file) = Ret Demo.authenticator ∧
  keys Demo.authenticator !! Demo.K = Some Demo.verify_key ∧
  authenticate_worker Demo.authenticator (JStr Demo.K) (JStr "zz") =
    Raise (BinasciiError "Non-hexadecimal digit found").
Proof.
  assert (Hkey : keys Demo.authenticator !! Demo.K = Some Demo.verify_key)
    by apply lookup_singleton_eq.
  split; [vm_compute; reflexivity|].
  split; [exact Hkey|].
  by rewrite (authenticate_worker_listed Demo.authenticator Demo.K "zz" Demo.verify_key eq_refl Hkey).
Qed.

(** *** The admin gate *)

(** C5.  [is_admin] is true exactly when both credentials are configured
    and equal the supplied ones; with either one not configured it is
    false for every supplied pair. *)
Theorem is_admin_exact (environ : gmap string string) (username password : string) :
  (is_admin environ username password = true ↔
     environ !! "ADMIN_USERNAME"%string = Some username ∧
     environ !! "ADMIN_PASSWORD"%string = Some password) ∧
  (environ !! "ADMIN_USERNAME"%string = None ∨
   environ !! "ADMIN_PASSWORD"%string = None →
   ∀ u p, is_admin environ u p = false).
Proof.
  unfold is_admin. split.
  - destruct (environ !! "ADMIN_USERNAME"%string) as [u|],
             (environ !! "ADMIN_PASSWORD"%string) as [p|]; simpl.
    + rewrite andb_true_iff, !bool_decide_eq_true. split.
      * by intros [-> ->].
      * by intros [[= ->] [= ->]].
    + split; [done|]. by intros [_ ?].
    + split; [done|]. by intros [? _].
    + split; [done|]. by intros [? _].
  - intros [->| ->] u p; [done|].
    by destruct (environ !! "ADMIN_USERNAME"%string).
Qed.

(** *** Registration *)

Lemma append_length (a b : string) :
  String.length (a ++ b) = (String.length a + String.length b)%nat.
Proof. induction a as [|c a IH]; simpl; [done|]. by rewrite IH. Qed.

Lemma append_inj_suffix (a b s : string) :
  (a ++ s = b ++ s)%string → a = b.
Proof.
  revert b. induction a as [|c a IH]; intros [|d b] Heq; simpl in *.
  - done.
  - apply (f_equal String.length) in Heq.
    rewrite !append_length in Heq. simpl in Heq. lia.
  - apply (f_equal String.length) in Heq.
    rewrite !append_length in Heq. simpl in Heq. lia.
  - injection Heq as -> Heq. f_equal. by apply IH.
Qed.

Lemma minted_inj (t1 t2 : string) :
  minted t1 = minted t2 ↔
  sha224_hexdigest (encode t1) = sha224_hexdigest (encode t2).
Proof.
  unfold minted. split; [apply append_inj_suffix|by intros ->].
Qed.

(** [register_worker] without a key file, on a request with both fields:
    the identity is minted from the clock reading, listed if it is not
    yet, made active, and the callback is invoked once. *)
Lemma register_worker_open (now : string) (worker_data : gmap string jvalue)
    (w : World App) :
  authenticate (worker_authenticator (server w)) = false →
  is_Some (worker_data !! PUBLIC_KEY_STR) →
  is_Some (worker_data !! SIGNED_PHRASE) →
  register_worker now worker_data w =
    (match fst (register_worker_callback (minted now) (app w)) with
     | Ret _ => Ret (PStr (minted now))
     | Raise e => Raise e
     end,
     {| server :=
          {| worker_authenticator := worker_authenticator (server w);
             worker_list :=
               if bool_decide (minted now ∈ worker_list (server w))
               then worker_list (server w)
               else worker_list (server w) ++ [minted now];
             active_workers := {[minted now]} ∪ active_workers (server w) |};
        app := snd (register_worker_callback (minted now) (app w));
        calls := calls w ++ [RegisterWorkerCallback (minted now)] |}).
Proof.
  intros Hauth [pk Hpk] [sp Hsp].
  unfold_handlers. rewrite Hpk, Hsp; simpl.
  rewrite (authenticate_worker_open _ pk sp Hauth); simpl.
  fold (minted now).
  destruct (bool_decide (minted now ∈ worker_list (server w))); simpl;
    by destruct (register_worker_callback (minted now) (app w)) as [[[]|e] a'].
Qed.

(** C4, as amended.  Without a key file, two consecutive registrations
    return the identities minted from their two clock readings (or raise
    what the on-worker-joined callback raised); the two identities differ
    exactly when the SHA-224 digests of the readings differ, so two calls
    that read the same clock value return the same identity. *)
Theorem register_twice_open (w : World App) (t1 t2 : string)
    (d1 d2 : gmap string jvalue) :
  authenticate (worker_authenticator (server w)) = false →
  is_Some (d1 !! PUBLIC_KEY_STR) → is_Some (d1 !! SIGNED_PHRASE) →
  is_Some (d2 !! PUBLIC_KEY_STR) → is_Some (d2 !! SIGNED_PHRASE) →
  let o1 := register_worker t1 d1 w in
  let o2 := register_worker t2 d2 (snd o1) in
  fst o1 = match fst (register_worker_callback (minted t1) (app w)) with
           | Ret _ => Ret (PStr (minted t1))
           | Raise e => Raise e
           end ∧
  fst o2 = match fst (register_worker_callback (minted t2) (app (snd o1))) with
           | Ret _ => Ret (PStr (minted t2))
           | Raise e => Raise e
           end ∧
  (minted t1 ≠ minted t2 ↔
   sha224_hexdigest (encode t1) ≠ sha224_hexdigest (encode t2)).
Proof.
  intros Hauth Hpk1 Hsp1 Hpk2 Hsp2 o1 o2. subst o1 o2.
  rewrite (register_worker_open t1 d1 w Hauth Hpk1 Hsp1); simpl.
  split; [done|]. split; [|by rewrite minted_inj].
  by rewrite register_worker_open.
Qed.

(** *** Malformed requests *)

(** On a JSON object the handlers on any [request.json] are the handlers
    above. *)
Lemma json_object_handlers (now i : string) (d : gmap string jvalue)
    (w : World App) :
  register_worker_json now (JObject d) w = register_worker now d w ∧
  admin_add_worker_json (JObject d) w = admin_add_worker d w ∧
  admin_set_worker_status_json i (JObject d) w = admin_set_worker_status i d w ∧
  query_global_model_status_json (JObject d) w = query_global_model_status d w ∧
  return_global_model_json (JObject d) w = return_global_model d w.
Proof.
  split_and!.
  - reflexivity.
  - unfold admin_add_worker_json, admin_add_worker, contains, subscript,
      getitem, bind, lift, ret.
    destruct (d !! PUBLIC_KEY_STR) as [[| | |k]|]; simpl; try done.
    destruct (bool_decide (k = ""%string)); [done|].
    unfold get_self. simpl.
    destruct (in_worker_list k (server w)); [done|].
    unfold worker_list_append, bind, get_self, put_self; simpl.
    by destruct (d !! "active"%string) as [v|].
  - unfold admin_set_worker_status_json, admin_set_worker_status, contains,
      subscript, getitem, bind, lift, ret.
    by destruct (d !! "active"%string) as [[| | |]|].
  - unfold query_global_model_status_json, query_global_model_status,
      try_except_str, contains, subscript, getitem, bind, lift, ret.
    by destruct (d !! WORKER_ID_KEY) as [v|].
  - unfold return_global_model_json, return_global_model,
      try_except_str, contains, subscript, getitem, bind, lift, ret.
    by destruct (d !! WORKER_ID_KEY) as [v|].
Qed.


(** *** Administration *)




End Properties.

(** ** The handlers run on the application of [Demo] *)

Local Open Scope string_scope.

Ltac by_computation := apply (bool_decide_unpack _); vm_compute; exact I.

(** With the key file of [Demo]: a registration whose signature libsodium
    rejects is answered [INVALID_WORKER], and the world is unchanged. *)
Example register_rejected :
  register_worker "1604448000.1234567" Demo.registration Demo.restricted_world =
    (Ret (PStr INVALID_WORKER), Demo.restricted_world).
Proof. vm_compute. reflexivity. Qed.

(** An administrator adds two workers, activates one and deletes the
    other; the listing shows what is left. *)
Example admin_session :
  fst (admin_list_workers
         (run [AdminAddWorker (Demo.add_body "w1" false);
               AdminAddWorker (Demo.add_body "w2" true);
               AdminSetWorkerStatus "w1" (Demo.status_body true);
               AdminDeleteWorker "w2"] Demo.open_world)) =
    Ret (PJson (JList [[("worker_id", JStr "w1"); ("active", JBool true)]])).
Proof. vm_compute. reflexivity. Qed.

(** C1 at the server that was asked to add "w1" as active: "w1" is active,
    and so it is listed. *)
Lemma active_implies_known_witness :
  "w1" ∈ active_workers (server Demo.active_w1) ∧
  "w1" ∈ worker_list (server Demo.active_w1).
Proof.
  assert (Hact : "w1" ∈ active_workers (server Demo.active_w1))
    by by_computation.
  split; [exact Hact|].
  exact (active_implies_known {| authenticate := false; keys := ∅ |} O
           [AdminAddWorker (Demo.add_body "w1" true)] "w1" Hact).
Defined.

(** C2 as stated fails: "w1" is listed and not active, and its update
    with an empty payload returns the text of zlib's error, not the
    sentinel. *)
Lemma inactive_worker_bad_payload :
  "w1" ∈ worker_list (server Demo.inactive_w1) ∧
  ("w1" ∉ active_workers (server Demo.inactive_w1)) ∧
  fst (receive_worker_update "w1" (Demo.upload []) Demo.inactive_w1) =
    Ret (PStr "Error -5 while decompressing data: incomplete or truncated stream") ∧
  fst (receive_worker_update "w1" (Demo.upload []) Demo.inactive_w1) ≠
    Ret (PStr UNREGISTERED_WORKER).
Proof.
  split_and!.
  - by_computation.
  - by_computation.
  - vm_compute. reflexivity.
  - vm_compute. discriminate.
Qed.

(** C2 as amended, for the inactive "w1" and a payload that decompresses. *)
Lemma relay_refuses_inactive_witness :
  query_global_model_status (Demo.query_body "w1") Demo.inactive_w1 =
    (Ret (PStr UNREGISTERED_WORKER), Demo.inactive_w1) ∧
  return_global_model (Demo.query_body "w1") Demo.inactive_w1 =
    (Ret (PStr UNREGISTERED_WORKER), Demo.inactive_w1) ∧
  receive_worker_update "w1" (Demo.upload Demo.empty_stream) Demo.inactive_w1 =
    (Ret (PStr UNREGISTERED_WORKER), Demo.inactive_w1).
Proof.
  destruct (relay_refuses_inactive Demo.inactive_w1 "w1" (Demo.query_body "w1")
              (Demo.upload Demo.empty_stream)) as (Hq & Hm & _ & Hu).
  - by_computation.
  - by_computation.
  - vm_compute. reflexivity.
  - split_and!; [exact Hq|exact Hm|].
    apply (Hu Demo.empty_stream []); vm_compute; reflexivity.
Defined.

(** C10 for an identity the registry has never seen and the empty payload:
    the result is the text of zlib's error. *)
Lemma receive_worker_update_decompresses_first_witness :
  receive_worker_update "ghost" (Demo.upload []) Demo.open_world =
    (Ret (PStr "Error -5 while decompressing data: incomplete or truncated stream"),
     Demo.open_world).
Proof.
  destruct (receive_worker_update_decompresses_first Demo.open_world "ghost"
              (Demo.upload [])) as [Herr _].
  destruct (Herr [] (-5)%Z (Some "incomplete or truncated stream")) as [Hres _].
  - vm_compute. reflexivity.
  - vm_compute. reflexivity.
  - exact Hres.
Defined.

(** C4 as stated fails: two registrations that read the same clock value
    return the same identity. *)
Lemma register_twice_same_reading :
  let o1 := register_worker "1604448000.1234567" Demo.registration Demo.open_world in
  let o2 := register_worker "1604448000.1234567" Demo.registration (snd o1) in
  fst o1 =
    Ret (PStr "cbf643be68a3770e0218a7cf5a2f19347edab26973fb905291ce35cd_unauthenticated") ∧
  fst o2 = fst o1.
Proof. vm_compute. split; reflexivity. Qed.

(** C4 as amended, for two different readings. *)
Lemma register_twice_open_witness :
  let o1 := register_worker "1604448000.1234567" Demo.registration Demo.open_world in
  let o2 := register_worker "1604448000.1234568" Demo.registration (snd o1) in
  fst o1 = Ret (PStr (minted "1604448000.1234567")) ∧
  fst o2 = Ret (PStr (minted "1604448000.1234568")) ∧
  minted "1604448000.1234567" ≠ minted "1604448000.1234568".
Proof.
  destruct (register_twice_open Demo.open_world
              "1604448000.1234567" "1604448000.1234568"
              Demo.registration Demo.registration) as (H1 & H2 & Hne).
  - reflexivity.
  - by_computation.
  - by_computation.
  - by_computation.
  - by_computation.
  - split_and!; [exact H1|exact H2|].
    apply Hne. vm_compute. discriminate.
Defined.

(** C5 with both credentials configured, and with none. *)
Lemma is_admin_exact_witness :
  is_admin {[ "ADMIN_USERNAME" := "admin"; "ADMIN_PASSWORD" := "secret" ]}
           "admin" "secret" = true ∧
  is_admin {[ "ADMIN_USERNAME" := "admin" ]} "admin" "" = false.
Proof.
  split.
  - apply (is_admin_exact
             {[ "ADMIN_USERNAME" := "admin"; "ADMIN_PASSWORD" := "secret" ]}
             "admin" "secret").
    split; vm_compute; reflexivity.
  - apply (is_admin_exact {[ "ADMIN_USERNAME" := "admin" ]} "" "").
    right. vm_compute. reflexivity.
Defined.






(** ** The registry, the callback log and the routes *)

Local Open Scope list_scope.

Section Behaviour.

Context `{Libraries} `{Application App}.

Ltac bools :=
  repeat match goal with
    | H : negb _ = true |- _ => apply negb_true_iff in H
    | H : negb _ = false |- _ => apply negb_false_iff in H
    | H : bool_decide _ = true |- _ => apply bool_decide_eq_true in H
    | H : bool_decide _ = false |- _ => apply bool_decide_eq_false in H
    | H : _ && _ = true |- _ => apply andb_true_iff in H; destruct H
    end.

Ltac unfold_routes :=
  unfold serve, start_server, auth_basic, handle, register_worker,
    register_worker_finish, admin_list_workers,
    admin_add_worker, admin_delete_worker, admin_set_worker_status,
    receive_worker_update, query_global_model_status, return_global_model,
    try_except_str, worker_list_append, worker_list_remove,
    active_workers_add, active_workers_remove, invoke, when, bind, ret,
    raise, lift, get_self, put_self, registered, getitem, zlib_decompress,
    in_worker_list, in_active_workers in *.

(** One request: the authenticator stays, and either nothing is logged and
    the active set stays, or one callback is logged and the active set
    moves as that callback says. *)
Lemma handle_step (r : request) (w : World App) :
  worker_authenticator (server (snd (handle r w))) =
    worker_authenticator (server w) ∧
  ((calls (snd (handle r w)) = calls w ∧
    active_workers (server (snd (handle r w))) = active_workers (server w)) ∨
   ∃ c, calls (snd (handle r w)) = calls w ++ [c] ∧
        active_workers (server (snd (handle r w))) =
          track_active (active_workers (server w)) c ∧
        invoked_on (server w) c).
Proof.
  destruct w as [[auth l act] a cs].
  destruct r; unfold_routes; simpl in *.
  all: repeat (case_match; simplify_eq/=); split; try done.
  all: bools.
  all: first [ by left
             | right; eexists; split_and!; [reflexivity|reflexivity|];
               simpl; by eauto ].
Qed.

Lemma active_from_calls_snoc (cs : list call) (c : call) :
  active_from_calls (cs ++ [c]) = track_active (active_from_calls cs) c.
Proof. unfold active_from_calls. by rewrite fold_left_app. Qed.

Lemma snoc_cases {A : Type} (l : list A) :
  l = [] ∨ ∃ l' x, l = l' ++ [x].
Proof. induction l as [|x l' _] using rev_ind; eauto. Qed.

Lemma handle_log_ok (r : request) (w : World App) :
  log_ok w → log_ok (snd (handle r w)).
Proof.
  intros [Hact Hupd].
  destruct (handle_step r w) as [_ [[Hcs Ha]|(c & Hcs & Ha & Hc)]].
  - split; rewrite Hcs; [by rewrite Ha|done].
  - split.
    + by rewrite Hcs, Ha, Hact, active_from_calls_snoc.
    + rewrite Hcs. intros cs1 i b cs2 Heq.
      destruct (snoc_cases cs2) as [->|(cs2' & d & ->)].
      * apply app_inj_tail in Heq as [<- ->]. rewrite <- Hact. by destruct Hc.
      * rewrite app_comm_cons, app_assoc in Heq.
        apply app_inj_tail in Heq as [Hsplit _]. by eapply Hupd.
Qed.

Lemma run_log_ok (rs : list request) (w : World App) :
  log_ok w → log_ok (run rs w).
Proof.
  revert w. induction rs as [|r rs IH]; intros w Hok; [done|].
  rewrite run_cons. by apply IH, handle_log_ok.
Qed.

Lemma start_log_ok (auth : WorkerAuthenticator) (a : App) :
  log_ok (start auth a).
Proof.
  split; [done|]. intros cs1 i b cs2 Hnil.
  by destruct cs1.
Qed.

(** X1.  After any sequence of requests to a server started with empty
    collections, no identity is listed twice in [worker_list]. *)
Theorem worker_list_NoDup (auth : WorkerAuthenticator) (a : App)
    (rs : list request) :
  NoDup (worker_list (server (run rs (start auth a)))).
Proof.
  apply (run_registry_ok rs (start auth a)), registry_ok_start.
Qed.

(** X2.  No sequence of requests changes the authenticator: the mode and
    the key list stay as the server was constructed with. *)
Theorem worker_authenticator_fixed (rs : list request) (w : World App) :
  worker_authenticator (server (run rs w)) = worker_authenticator (server w).
Proof.
  revert w. induction rs as [|r rs IH]; intros w; [done|].
  rewrite run_cons, IH. apply handle_step.
Qed.

(** X3.  After any sequence of requests, the active set is the one the
    application gets by replaying the callbacks it was given: joined on
    on-worker-joined, left on on-worker-left.  This holds also when
    callbacks raised. *)
Theorem active_workers_from_calls (auth : WorkerAuthenticator) (a : App)
    (rs : list request) :
  active_workers (server (run rs (start auth a))) =
    active_from_calls (calls (run rs (start auth a))).
Proof. apply run_log_ok, start_log_ok. Qed.

(** X4.  A request that invokes a callback invokes one only: the update
    callback only for an identity that is listed and active at that
    moment, the status and model callbacks only while some listed identity
    is active. *)
Theorem callback_only_for_active (r : request) (w : World App) (c : call)
    (cs : list call) :
  calls (snd (handle r w)) = calls w ++ c :: cs →
  cs = [] ∧ invoked_on (server w) c.
Proof.
  destruct (handle_step r w) as [_ [[Hcs _]|(c' & Hcs & _ & Hc)]]; rewrite Hcs.
  - intros Heq. apply (f_equal length) in Heq.
    rewrite length_app in Heq. simpl in Heq. lia.
  - intros Heq. apply app_inv_head in Heq. by injection Heq as <- <-.
Qed.

(** X5.  In the log of any sequence of requests, an update callback for an
    identity comes after an on-worker-joined callback for it, with no
    on-worker-left for it in between. *)
Theorem update_after_join (auth : WorkerAuthenticator) (a : App)
    (rs : list request) (cs1 cs2 : list call) (i : string) (b : bytes) :
  calls (run rs (start auth a)) = cs1 ++ ReceiveWorkerUpdateCallback i b :: cs2 →
  i ∈ active_from_calls cs1.
Proof. apply (run_log_ok rs (start auth a)), start_log_ok. Qed.

(** *** The relay, for every request *)


(** X7.  An update from a listed, active identity whose payload
    decompresses: the callback is invoked once, with the identity and the
    decompressed bytes; what it returns is returned, what it raises is
    returned as its text; the registry is unchanged. *)
Theorem receive_worker_update_active (w : World App) (i : string)
    (files : gmap string bytes) (data out : bytes) :
  i ∈ worker_list (server w) →
  i ∈ active_workers (server w) →
  files !! ID_AND_MODEL_KEY = Some data →
  zlib_inflate data = inr out →
  receive_worker_update i files w =
    (match fst (receive_worker_update_callback i out (app w)) with
     | Ret v => Ret v
     | Raise e => Ret (PStr (str_exn e))
     end,
     {| server := server w;
        app := snd (receive_worker_update_callback i out (app w));
        calls := calls w ++ [ReceiveWorkerUpdateCallback i out] |}).
Proof.
  intros Hl Hact Hdata Hout. unfold_routes.
  rewrite Hdata; simpl. rewrite Hout; simpl.
  rewrite (bool_decide_eq_true_2 _ Hl), (bool_decide_eq_true_2 _ Hact); simpl.
  by destruct (receive_worker_update_callback i out (app w)) as [[v|e] a'].
Qed.

(** X8.  A status query and a model query from a listed, active identity:
    the callback is invoked once; the status is returned as the callback
    gives it, the model compressed; an exception of the callback is
    returned as its text; the registry is unchanged. *)
Theorem query_active (w : World App) (i : string) (q : gmap string jvalue) :
  i ∈ worker_list (server w) →
  i ∈ active_workers (server w) →
  q !! WORKER_ID_KEY = Some (JStr i) →
  query_global_model_status q w =
    (match fst (query_global_model_status_callback (app w)) with
     | Ret v => Ret v
     | Raise e => Ret (PStr (str_exn e))
     end,
     {| server := server w;
        app := snd (query_global_model_status_callback (app w));
        calls := calls w ++ [QueryGlobalModelStatusCallback] |}) ∧
  return_global_model q w =
    (match fst (return_global_model_callback (app w)) with
     | Ret model => Ret (PBytes (zlib_compress model))
     | Raise e => Ret (PStr (str_exn e))
     end,
     {| server := server w;
        app := snd (return_global_model_callback (app w));
        calls := calls w ++ [ReturnGlobalModelCallback] |}).
Proof.
  intros Hl Hact Hq. unfold_routes. rewrite Hq; simpl.
  rewrite (bool_decide_eq_true_2 _ Hl), (bool_decide_eq_true_2 _ Hact); simpl.
  split.
  - by destruct (query_global_model_status_callback (app w)) as [[v|e] a'].
  - by destruct (return_global_model_callback (app w)) as [[v|e] a'].
Qed.

(** X9.  For an identity that is not listed, and for a worker-id field that
    is not a string at all, the status and model queries return
    [UNREGISTERED_WORKER]; so does the update of an unlisted identity when
    its payload decompresses; none of them invokes a callback or changes
    the world. *)
Theorem relay_refuses_unknown (w : World App) (i : string) (v : jvalue)
    (q : gmap string jvalue) (files : gmap string bytes) :
  q !! WORKER_ID_KEY = Some v →
  (∀ j, v = JStr j → j ∉ worker_list (server w)) →
  i ∉ worker_list (server w) →
  query_global_model_status q w = (Ret (PStr UNREGISTERED_WORKER), w) ∧
  return_global_model q w = (Ret (PStr UNREGISTERED_WORKER), w) ∧
  snd (receive_worker_update i files w) = w ∧
  (∀ data out,
      files !! ID_AND_MODEL_KEY = Some data →
      zlib_inflate data = inr out →
      receive_worker_update i files w = (Ret (PStr UNREGISTERED_WORKER), w)).
Proof.
  intros Hq Hv Hi. unfold_routes. rewrite Hq; simpl.
  rewrite (bool_decide_eq_false_2 _ Hi).
  assert (Hreg : (match v with
                  | JStr s => (bool_decide (s ∈ worker_list (server w)),
                               bool_decide (s ∈ active_workers (server w)))
                  | _ => (false, false)
                  end).1 = false).
  { destruct v as [| | |j]; try done. simpl.
    apply bool_decide_eq_false_2. by apply Hv. }
  rewrite Hreg; simpl. split_and!; try done.
  - destruct (files !! ID_AND_MODEL_KEY) as [data|]; simpl; [|done].
    by destruct (zlib_inflate data) as [[code zmsg]|out].
  - intros data out -> Hout; simpl. by rewrite Hout.
Qed.

(** *** The authenticator and registration with a key file *)

(** X10.  [authenticate_worker] gives (True, AUTHENTICATED) only for a key
    of the key list and a signed message that is a string of hexadecimal
    digits whose bytes libsodium accepts under that key; it gives
    (True, NO_AUTHENTICATION) only without a key list. *)
Theorem authenticate_worker_sound (self : WorkerAuthenticator)
    (public_key_str signed_message : jvalue) (t : auth_type) :
  authenticate_worker self public_key_str signed_message = Ret (true, t) →
  match t with
  | NO_AUTHENTICATION => authenticate self = false
  | AUTHENTICATED =>
      authenticate self = true ∧
      ∃ k key s signed message,
        public_key_str = JStr k ∧ keys self !! k = Some key ∧
        signed_message = JStr s ∧
        HexEncoder_decode (encode s) = Ret signed ∧
        crypto_sign_open signed (key_bytes key) = Some message
  end.
Proof.
  unfold authenticate_worker, authenticate_worker_try, VerifyKey_verify,
    keys_lookup, str_encode.
  destruct (authenticate self); simpl; [|by intros [= <-]].
  destruct public_key_str as [| | |k]; try done.
  destruct (keys self !! k) as [key|] eqn:Hkey; [|done].
  destruct signed_message as [| | |s]; try done.
  destruct (HexEncoder_decode (encode s)) as [signed|e] eqn:Hdec.
  - destruct (crypto_sign_open signed (key_bytes key)) as [m|] eqn:Hopen; [|done].
    intros [= <-]. split; [done|]. by exists k, key, s, signed, m.
  - apply HexEncoder_decode_raises in Hdec as [msg ->]. done.
Qed.

(** The verdict of the authenticator on a listed key and a hexadecimal
    signed message. *)
Lemma authenticate_worker_verdict (self : WorkerAuthenticator) (k s : string)
    (key : VerifyKey) (signed : bytes) :
  authenticate self = true →
  keys self !! k = Some key →
  HexEncoder_decode (encode s) = Ret signed →
  authenticate_worker self (JStr k) (JStr s) =
    Ret (if crypto_sign_open signed (key_bytes key) is Some _ then true else false,
         AUTHENTICATED).
Proof.
  intros Hauth Hkey Hdec.
  unfold authenticate_worker, authenticate_worker_try, VerifyKey_verify,
    keys_lookup, str_encode.
  rewrite Hauth; simpl. rewrite Hkey, Hdec.
  by destruct (crypto_sign_open signed (key_bytes key)).
Qed.


(** X12.  With a key list, a registration with a listed key, a signature
    libsodium accepts and a worker the administrator has added returns the
    public key as the identity (or raises what the callback raised), makes
    it active, leaves [worker_list] as it is and invokes the
    on-worker-joined callback once - also when the worker was active
    already. *)
Theorem register_worker_admits (now : string) (d : gmap string jvalue)
    (w : World App) (k s : string) (key : VerifyKey) (signed message : bytes) :
  authenticate (worker_authenticator (server w)) = true →
  d !! PUBLIC_KEY_STR = Some (JStr k) →
  d !! SIGNED_PHRASE = Some (JStr s) →
  keys (worker_authenticator (server w)) !! k = Some key →
  HexEncoder_decode (encode s) = Ret signed →
  crypto_sign_open signed (key_bytes key) = Some message →
  k ∈ worker_list (server w) →
  register_worker now d w =
    (match fst (register_worker_callback k (app w)) with
     | Ret _ => Ret (PStr k)
     | Raise e => Raise e
     end,
     {| server :=
          {| worker_authenticator := worker_authenticator (server w);
             worker_list := worker_list (server w);
             active_workers := {[k]} ∪ active_workers (server w) |};
        app := snd (register_worker_callback k (app w));
        calls := calls w ++ [RegisterWorkerCallback k] |}).
Proof.
  intros Hauth Hpk Hsp Hkey Hdec Hopen Hl.
  unfold_routes. rewrite Hpk, Hsp; simpl.
  rewrite (authenticate_worker_verdict _ k s key signed Hauth Hkey Hdec).
  rewrite Hopen; simpl. rewrite (bool_decide_eq_true_2 _ Hl); simpl.
  by destruct (register_worker_callback k (app w)) as [[[]|e] a'].
Qed.

(** X13.  A registration whose body is a JSON object without the public
    key, or with it and without the signed phrase, raises the [KeyError]
    of the first missing field; one without a JSON body, or whose body is
    not an object, raises the TypeError of the subscript; in each case
    nothing changes - with and without a key list. *)
Theorem register_worker_missing_field (now : string) (b : json_body)
    (w : World App) :
  (∀ d, b = JObject d → d !! PUBLIC_KEY_STR = None →
     register_worker_json now b w = (Raise (KeyError PUBLIC_KEY_STR), w)) ∧
  (∀ d, b = JObject d → is_Some (d !! PUBLIC_KEY_STR) →
     d !! SIGNED_PHRASE = None →
     register_worker_json now b w = (Raise (KeyError SIGNED_PHRASE), w)) ∧
  ((∀ d, b ≠ JObject d) →
     ∃ msg, subscript b PUBLIC_KEY_STR = Raise (TypeError msg) ∧
            register_worker_json now b w = (Raise (TypeError msg), w)) ∧
  register_worker_json now (JValue JNull) w =
    (Raise (TypeError "'NoneType' object is not subscriptable"), w).
Proof.
  unfold register_worker_json, bind, lift, subscript, getitem. split_and!.
  - by intros d -> ->.
  - by intros d -> [pk ->] ->.
  - intros Hb. destruct b as [[| | |s]|items|d]; simpl; eauto.
    by destruct (Hb d).
  - done.
Qed.

(** *** Administration: adding, removing, changing the status *)

(** [admin_add_worker] for a non-empty identity that is not listed. *)
Lemma admin_add_worker_fresh (d : gmap string jvalue) (w : World App)
    (i : string) :
  d !! PUBLIC_KEY_STR = Some (JStr i) →
  i ≠ ""%string →
  i ∉ worker_list (server w) →
  admin_add_worker d w =
    if (if d !! "active"%string is Some v then eq_True v else false) then
      (match fst (register_worker_callback i (app w)) with
       | Ret _ => Ret (PJson (JDict [("worker_id"%string, JStr i);
                                     ("active"%string, JBool true)]))
       | Raise e => Raise e
       end,
       {| server :=
            {| worker_authenticator := worker_authenticator (server w);
               worker_list := worker_list (server w) ++ [i];
               active_workers := {[i]} ∪ active_workers (server w) |};
          app := snd (register_worker_callback i (app w));
          calls := calls w ++ [RegisterWorkerCallback i] |})
    else
      (Ret (PJson (JDict [("worker_id"%string, JStr i);
                          ("active"%string,
                           JBool (bool_decide (i ∈ active_workers (server w))))])),
       {| server :=
            {| worker_authenticator := worker_authenticator (server w);
               worker_list := worker_list (server w) ++ [i];
               active_workers := active_workers (server w) |};
          app := app w;
          calls := calls w |}).
Proof.
  intros Hd Hne Hl. unfold_routes. unfold worker_entry, in_active_workers.
  rewrite Hd. rewrite (bool_decide_eq_false_2 _ Hne); simpl.
  rewrite (bool_decide_eq_false_2 _ Hl); simpl.
  destruct (if d !! "active"%string is Some v then eq_True v else false); simpl;
    [|done].
  destruct (register_worker_callback i (app w)) as [[[]|e] a']; simpl; [|done].
  rewrite bool_decide_eq_true_2; [done|].
  apply elem_of_union. left. by apply elem_of_singleton.
Qed.

(** X14.  [admin_add_worker] for a non-empty identity that is not listed
    appends it to [worker_list].  When the body has "active" equal to True
    (the JSON true, and also the number 1) the identity is made active and
    the on-worker-joined callback is invoked once; the payload says
    active, unless the callback raised.  Otherwise nothing else changes,
    and the payload says whether the identity is active. *)
Theorem admin_add_worker_adds (d : gmap string jvalue) (w : World App)
    (i : string) :
  d !! PUBLIC_KEY_STR = Some (JStr i) →
  i ≠ ""%string →
  i ∉ worker_list (server w) →
  worker_list (server (snd (admin_add_worker d w))) = worker_list (server w) ++ [i] ∧
  ((∃ v, d !! "active"%string = Some v ∧ eq_True v = true) →
     active_workers (server (snd (admin_add_worker d w))) =
       {[i]} ∪ active_workers (server w) ∧
     calls (snd (admin_add_worker d w)) = calls w ++ [RegisterWorkerCallback i] ∧
     fst (admin_add_worker d w) =
       match fst (register_worker_callback i (app w)) with
       | Ret _ => Ret (PJson (JDict [("worker_id"%string, JStr i);
                                     ("active"%string, JBool true)]))
       | Raise e => Raise e
       end) ∧
  ((∀ v, d !! "active"%string = Some v → eq_True v = false) →
     active_workers (server (snd (admin_add_worker d w))) =
       active_workers (server w) ∧
     calls (snd (admin_add_worker d w)) = calls w ∧
     app (snd (admin_add_worker d w)) = app w ∧
     fst (admin_add_worker d w) =
       Ret (PJson (JDict [("worker_id"%string, JStr i);
                          ("active"%string,
                           JBool (bool_decide (i ∈ active_workers (server w))))]))).
Proof.
  intros Hd Hne Hl. rewrite (admin_add_worker_fresh d w i Hd Hne Hl).
  split_and!.
  - by destruct (if d !! "active"%string is Some v then eq_True v else false).
  - intros (v & -> & ->). done.
  - intros Hv. destruct (d !! "active"%string) as [v|]; [|done].
    by rewrite (Hv v eq_refl).
Qed.

(** [admin_add_worker] for an identity that is listed already. *)
Lemma admin_add_worker_listed (d : gmap string jvalue) (w : World App)
    (i : string) :
  d !! PUBLIC_KEY_STR = Some (JStr i) →
  i ≠ ""%string →
  i ∈ worker_list (server w) →
  admin_add_worker d w =
    (Ret (error_payload ("Worker " ++ i ++ " already exists")), w).
Proof.
  intros Hd Hne Hl. unfold_routes. rewrite Hd.
  rewrite (bool_decide_eq_false_2 _ Hne); simpl.
  by rewrite (bool_decide_eq_true_2 _ Hl).
Qed.

(** X15.  [admin_add_worker] refuses, with an error payload and without
    changing anything: a public key that is not a string or is empty, and
    an identity that is listed already. *)
Theorem admin_add_worker_refuses (d : gmap string jvalue) (w : World App)
    (v : jvalue) :
  d !! PUBLIC_KEY_STR = Some v →
  ((∀ i, v = JStr i → i = ""%string) →
     admin_add_worker d w = (Ret (error_payload "Public key must be a string"), w)) ∧
  (∀ i, v = JStr i → i ≠ ""%string → i ∈ worker_list (server w) →
     admin_add_worker d w =
       (Ret (error_payload ("Worker " ++ i ++ " already exists")), w)).
Proof.
  intros Hd. split.
  - intros Hv. unfold_routes. rewrite Hd.
    destruct v as [| | |i]; try done.
    by rewrite (Hv i eq_refl).
  - intros i -> Hne Hl. by apply admin_add_worker_listed.
Qed.

(** X16.  Adding the same identity twice: whatever the first request did
    (added it, found it listed, or raised from the callback), the second
    is refused as "already exists" and changes nothing. *)
Theorem admin_add_worker_twice (d1 d2 : gmap string jvalue) (w : World App)
    (i : string) :
  d1 !! PUBLIC_KEY_STR = Some (JStr i) →
  d2 !! PUBLIC_KEY_STR = Some (JStr i) →
  i ≠ ""%string →
  admin_add_worker d2 (snd (admin_add_worker d1 w)) =
    (Ret (error_payload ("Worker " ++ i ++ " already exists")),
     snd (admin_add_worker d1 w)).
Proof.
  intros Hd1 Hd2 Hne.
  apply (admin_add_worker_listed d2 _ i Hd2 Hne).
  destruct (decide (i ∈ worker_list (server w))) as [Hl|Hl].
  - by rewrite (admin_add_worker_listed d1 w i Hd1 Hne Hl).
  - rewrite (admin_add_worker_fresh d1 w i Hd1 Hne Hl).
    destruct (if d1 !! "active"%string is Some v then eq_True v else false);
      simpl; apply elem_of_app; right; by apply list_elem_of_singleton.
Qed.

Lemma list_remove_snoc (i : string) (l : list string) :
  i ∉ l → list_remove i (l ++ [i]) = l.
Proof.
  induction l as [|z l IH]; simpl; intros Hi.
  - by destruct (decide (i = i)).
  - destruct (decide (i = z)) as [->|Hne].
    + exfalso. apply Hi. by apply elem_of_cons; left.
    + f_equal. apply IH. intros Hin. apply Hi. by apply elem_of_cons; right.
Qed.

Lemma union_difference_singleton (i : string) (act : gset string) :
  i ∉ act → ({[i]} ∪ act) ∖ {[i]} = act.
Proof. set_solver. Qed.

(** X17.  Adding an identity that is neither listed nor active, and then
    deleting it, gives back the registry as it was; if the addition made it
    active, the application was told that it joined and then that it left,
    and otherwise it was told nothing. *)
Theorem admin_add_then_delete (d : gmap string jvalue) (w : World App)
    (i : string) :
  d !! PUBLIC_KEY_STR = Some (JStr i) →
  i ≠ ""%string →
  i ∉ worker_list (server w) →
  i ∉ active_workers (server w) →
  server (snd (admin_delete_worker i (snd (admin_add_worker d w)))) = server w ∧
  calls (snd (admin_delete_worker i (snd (admin_add_worker d w)))) =
    if (if d !! "active"%string is Some v then eq_True v else false)
    then calls w ++ [RegisterWorkerCallback i; UnregisterWorkerCallback i]
    else calls w.
Proof.
  intros Hd Hne Hl Hact.
  rewrite (admin_add_worker_fresh d w i Hd Hne Hl).
  assert (Hin : i ∈ worker_list (server w) ++ [i])
    by (apply elem_of_app; right; by apply list_elem_of_singleton).
  destruct w as [[auth l act] a cs]; simpl in *.
  destruct (if d !! "active"%string is Some v then eq_True v else false); simpl.
  - unfold_routes; simpl.
    rewrite (bool_decide_eq_true_2 _ Hin); simpl.
    rewrite bool_decide_eq_true_2
      by (apply elem_of_union; left; by apply elem_of_singleton).
    simpl. rewrite (list_remove_snoc i l Hl).
    rewrite (union_difference_singleton i act Hact).
    destruct (unregister_worker_callback i _) as [[[]|e] a']; simpl.
    all: by rewrite <- app_assoc.
  - unfold_routes; simpl.
    rewrite (bool_decide_eq_true_2 _ Hin); simpl.
    rewrite (bool_decide_eq_false_2 _ Hact); simpl.
    by rewrite (list_remove_snoc i l Hl).
Qed.


(** X19.  [admin_set_worker_status] refuses, with an error payload and
    without changing anything: an "active" that is not a JSON boolean (the
    number 1 too, which [admin_add_worker] takes for True), and an identity
    that is not listed.  And whatever the request, it never changes
    [worker_list]. *)
Theorem admin_set_worker_status_refuses (d : gmap string jvalue) (w : World App)
    (i : string) (v : jvalue) :
  (d !! "active"%string = Some v →
   (∀ b, v ≠ JBool b) →
     admin_set_worker_status i d w =
       (Ret (error_payload ("Key 'active' should be a boolean: " ++ py_str v)), w)) ∧
  (∀ b, d !! "active"%string = Some (JBool b) →
     i ∉ worker_list (server w) →
     admin_set_worker_status i d w =
       (Ret (error_payload ("Unknown worker: " ++ i)), w)) ∧
  worker_list (server (snd (admin_set_worker_status i d w))) =
    worker_list (server w).
Proof.
  unfold_routes. split_and!.
  - intros -> Hv. destruct v as [|b| |]; try done. by destruct (Hv b).
  - intros b -> Hl. by rewrite (bool_decide_eq_false_2 _ Hl).
  - repeat (case_match; simplify_eq/=); done.
Qed.

Lemma filter_absent (i : string) (l : list string) :
  i ∉ l → filter (λ j, j ≠ i) l = l.
Proof.
  induction l as [|z l IH]; [done|]. intros Hi.
  rewrite filter_cons_True.
  - f_equal. apply IH. intros Hin. apply Hi. by apply elem_of_cons; right.
  - intros ->. apply Hi. by apply elem_of_cons; left.
Qed.

Lemma list_remove_filter (i : string) (l : list string) :
  NoDup l → list_remove i l = filter (λ j, j ≠ i) l.
Proof.
  induction 1 as [|z l Hz Hnd IH]; simpl; [done|].
  destruct (decide (i = z)) as [->|Hne].
  - rewrite filter_cons_False by (by intros Hzz; apply Hzz).
    by rewrite filter_absent.
  - rewrite filter_cons_True by (by intros ->). by rewrite IH.
Qed.

(** X20.  In every state the registry reaches, [admin_delete_worker] leaves
    the other identities as they are: [worker_list] keeps them in their
    order, [active_workers] loses the deleted one only. *)
Theorem admin_delete_worker_frame (auth : WorkerAuthenticator) (a : App)
    (rs : list request) (i : string) :
  worker_list (server (snd (admin_delete_worker i (run rs (start auth a))))) =
    filter (λ j, j ≠ i) (worker_list (server (run rs (start auth a)))) ∧
  active_workers (server (snd (admin_delete_worker i (run rs (start auth a))))) =
    active_workers (server (run rs (start auth a))) ∖ {[i]}.
Proof.
  destruct (run_registry_ok rs (start auth a) (registry_ok_start auth))
    as [Hnd Hsub].
  destruct (run rs (start auth a)) as [[au l act] a' cs]; simpl in *.
  unfold_routes; simpl.
  destruct (decide (i ∈ l)) as [Hl|Hl], (decide (i ∈ act)) as [Hact|Hact].
  - rewrite (bool_decide_eq_true_2 _ Hl); simpl.
    rewrite (bool_decide_eq_true_2 _ Hact); simpl.
    destruct (unregister_worker_callback i a') as [[[]|e] a'']; simpl.
    all: by rewrite list_remove_filter.
  - rewrite (bool_decide_eq_true_2 _ Hl); simpl.
    rewrite (bool_decide_eq_false_2 _ Hact); simpl.
    rewrite list_remove_filter by done. split; [done|]. set_solver.
  - destruct Hl. auto.
  - rewrite (bool_decide_eq_false_2 _ Hl); simpl.
    rewrite (bool_decide_eq_false_2 _ Hact); simpl.
    rewrite filter_absent by done. split; [done|]. set_solver.
Qed.

(** X21.  After an identity was added, [admin_list_workers] lists what it
    listed before, entry for entry, and the new identity last, with the
    active flag it was given. *)
Theorem admin_list_workers_after_add (d : gmap string jvalue) (w : World App)
    (i : string) :
  d !! PUBLIC_KEY_STR = Some (JStr i) →
  i ≠ ""%string →
  i ∉ worker_list (server w) →
  i ∉ active_workers (server w) →
  fst (admin_list_workers (snd (admin_add_worker d w))) =
    Ret (PJson (JList
      (map (worker_entry (server w)) (worker_list (server w)) ++
       [[("worker_id"%string, JStr i);
         ("active"%string,
          JBool (if d !! "active"%string is Some v then eq_True v else false))]]))).
Proof.
  intros Hd Hne Hl Hact.
  rewrite (admin_add_worker_fresh d w i Hd Hne Hl).
  destruct w as [[auth l act] a cs]; simpl in *.
  unfold admin_list_workers, bind, get_self, ret.
  destruct (if d !! "active"%string is Some v then eq_True v else false); simpl.
  - rewrite map_app; simpl.
    assert (Hold : map (worker_entry
                          {| worker_authenticator := auth; worker_list := l ++ [i];
                             active_workers := {[i]} ∪ act |}) l =
                   map (worker_entry
                          {| worker_authenticator := auth; worker_list := l;
                             active_workers := act |}) l).
    { apply map_ext_in. intros j Hj%list_elem_of_In.
      unfold worker_entry, in_active_workers; simpl. do 4 f_equal.
      apply bool_decide_ext. rewrite elem_of_union, elem_of_singleton.
      split; [|by right]. by intros [->|?]. }
    rewrite Hold. unfold worker_entry at 2. unfold in_active_workers; simpl.
    rewrite bool_decide_eq_true_2; [done|].
    apply elem_of_union. left. by apply elem_of_singleton.
  - rewrite map_app; simpl.
    unfold worker_entry at 2. unfold in_active_workers; simpl.
    by rewrite (bool_decide_eq_false_2 _ Hact).
Qed.

(** *** The routes *)

(** X22.  A request to an admin route without credentials, or with
    credentials the gate refuses, is answered with the 401 error and
    changes nothing: the handler is not run. *)
Theorem admin_route_denied (environ : gmap string string)
    (auth : option (string * string)) (r : request) (w : World App) :
  admin_route r = true →
  admitted environ auth = false →
  start_server environ auth r w = (Ret (HTTPError 401 "Access denied"), w).
Proof.
  intros Hr Hdenied. unfold start_server, auth_basic, admitted, ret in *.
  destruct r; try done.
  all: destruct auth as [[u p]|]; [|done].
  all: by rewrite Hdenied.
Qed.

Lemma is_admin_unconfigured (environ : gmap string string) (u p : string) :
  environ !! "ADMIN_USERNAME"%string = None ∨
  environ !! "ADMIN_PASSWORD"%string = None →
  is_admin environ u p = false.
Proof.
  unfold is_admin. intros [->| ->]; [done|].
  by destruct (environ !! "ADMIN_USERNAME"%string).
Qed.

(** With a key list, the authenticator says yes only to a string. *)
Lemma authenticate_worker_key (self : WorkerAuthenticator) (pk sm : jvalue)
    (t : auth_type) :
  authenticate self = true →
  authenticate_worker self pk sm = Ret (true, t) →
  t = AUTHENTICATED ∧ ∃ k, pk = JStr k.
Proof.
  unfold authenticate_worker, authenticate_worker_try, keys_lookup.
  intros ->; simpl.
  destruct pk as [| | |k]; try done.
  destruct (keys self !! k); [|done].
  destruct (str_encode sm) as [smessage|[]]; try done.
  destruct (VerifyKey_verify v smessage) as [m|[]]; try done.
  intros [= <-]. eauto.
Qed.

(** With a key list and an empty [worker_list], no worker route changes
    the world. *)
Lemma handle_unprovisioned (r : request) (w : World App) :
  admin_route r = false →
  authenticate (worker_authenticator (server w)) = true →
  worker_list (server w) = [] →
  snd (handle r w) = w.
Proof.
  destruct w as [[auth l act] a cs]; simpl. intros Hr Hauth ->.
  destruct r; try done; unfold_routes; simpl.
  - destruct (worker_data !! PUBLIC_KEY_STR) as [pk|]; simpl; [|done].
    destruct (worker_data !! SIGNED_PHRASE) as [sp|]; simpl; [|done].
    destruct (authenticate_worker auth pk sp) as [[[] t]|e] eqn:Ha; simpl;
      [|done|done].
    apply authenticate_worker_key in Ha as [-> [k ->]]; [|done].
    done.
  - destruct (files !! ID_AND_MODEL_KEY) as [data|]; simpl; [|done].
    destruct (zlib_inflate data) as [[code zmsg]|out]; simpl; [done|].
    done.
  - by destruct (query_request !! WORKER_ID_KEY) as [[| | |j]|].
  - by destruct (query_request !! WORKER_ID_KEY) as [[| | |j]|].
Qed.

(** X23.  A server started with a key list, in an environment where the
    admin user name or password is not set: no sequence of requests, with
    whatever credentials, ever lists or activates a worker or invokes a
    callback - the world stays as it was constructed. *)
Theorem unconfigured_admin_inert (environ : gmap string string)
    (auth : WorkerAuthenticator) (a : App)
    (rs : list (option (string * string) * request)) :
  authenticate auth = true →
  environ !! "ADMIN_USERNAME"%string = None ∨
  environ !! "ADMIN_PASSWORD"%string = None →
  serve environ rs (start auth a) = start auth a.
Proof.
  intros Hauth Henv. unfold serve.
  induction rs as [|[cred r] rs IH] using rev_ind; [done|].
  rewrite fold_left_app; simpl. rewrite IH.
  destruct (admin_route r) eqn:Hr.
  - unfold start_server, auth_basic, ret.
    destruct r; try done.
    all: destruct cred as [[u p]|]; [|done].
    all: by rewrite (is_admin_unconfigured environ u p Henv).
  - assert (Hw : snd (handle r (start auth a)) = start auth a)
      by by apply handle_unprovisioned.
    destruct r; try done; unfold start_server, bind, ret.
    all: by destruct (handle _ (start auth a)) as [[v|e] w'].
Qed.

(** *** The key file *)

Lemma encode_length (s : string) : length (encode s) = String.length s.
Proof.
  unfold encode, list_byte_of_string.
  induction s as [|c s IH]; simpl; [done|]. by rewrite IH.
Qed.

Lemma unhex_pairs_length (out hs : bytes) :
  unhex_pairs hs = Some out → length hs = (2 * length out)%nat.
Proof.
  revert hs. induction out as [|b out IH]; intros [|hi [|lo hs]]; simpl; try done.
  - by repeat case_match.
  - repeat case_match; try done. intros [= <- <-].
    rewrite (IH hs) by done. lia.
Qed.

(** A key [VerifyKey] accepts is written with 64 hexadecimal digits, and
    holds the 32 bytes they spell. *)
Lemma VerifyKey_init_Ret (k : string) (vk : VerifyKey) :
  VerifyKey_init (encode k) = Ret vk →
  HexEncoder_decode (encode k) = Ret (key_bytes vk) ∧
  length (key_bytes vk) = 32%nat ∧
  String.length k = 64%nat.
Proof.
  unfold VerifyKey_init.
  destruct (HexEncoder_decode (encode k)) as [raw|e] eqn:Hdec; [|done].
  case_bool_decide as Hlen; [|done]. intros [= <-]; simpl.
  split_and!; try done.
  unfold HexEncoder_decode in Hdec.
  destruct (Nat.odd (length (encode k))); [done|].
  destruct (unhex_pairs (encode k)) as [out|] eqn:Hun; [|done].
  injection Hdec as ->. apply unhex_pairs_length in Hun.
  rewrite encode_length in Hun. lia.
Qed.

Lemma load_keys_Ret (lines : list string) (m : gmap string VerifyKey) :
  load_keys lines = Ret m →
  ∀ k, (k ∈ lines → ∃ vk, VerifyKey_init (encode k) = Ret vk ∧ m !! k = Some vk) ∧
       (k ∉ lines → m !! k = None).
Proof.
  revert m. induction lines as [|l lines IH]; simpl; intros m.
  - intros [= <-] k. split; [by intros ?%elem_of_nil|done].
  - destruct (VerifyKey_init (encode l)) as [vk|e] eqn:Hl; [|done].
    destruct (load_keys lines) as [m'|e] eqn:Hrest; [|done].
    intros [= <-] k. destruct (IH m' eq_refl k) as [Hin Hout].
    destruct (decide (l = k)) as [->|Hne].
    + rewrite lookup_insert_eq. split; [by eauto|].
      intros Hk. exfalso. apply Hk. by apply elem_of_cons; left.
    + rewrite lookup_insert_ne by done. split.
      * intros [->|Hk]%elem_of_cons; [done|]. by apply Hin.
      * intros Hk. apply Hout. intros Hin'. apply Hk. by apply elem_of_cons; right.
Qed.

Lemma load_keys_Raise (lines : list string) (e : exn) :
  load_keys lines = Raise e →
  ∃ k, k ∈ lines ∧ VerifyKey_init (encode k) = Raise e.
Proof.
  induction lines as [|l lines IH]; simpl; [done|].
  destruct (VerifyKey_init (encode l)) as [vk|e'] eqn:Hl.
  - destruct (load_keys lines) as [m'|e'] eqn:Hrest; [done|].
    intros [= ->]. destruct (IH eq_refl) as (k & Hk & Hraise).
    exists k. split; [by apply elem_of_cons; right|done].
  - intros [= ->]. exists l. split; [by apply elem_of_cons; left|done].
Qed.

(** X24.  [WorkerAuthenticator] with a key file either raises the error of
    one of its lines that [VerifyKey] does not accept, or holds exactly the
    lines of the file as its keys: each line is then 64 hexadecimal digits
    and is mapped to the 32 bytes they spell.  A blank line in the file
    makes the constructor raise. *)
Theorem key_file_loaded (lines : list string) :
  match WorkerAuthenticator_init (Some lines) with
  | Ret self =>
      authenticate self = true ∧
      ("" ∉ lines) ∧
      ∀ k, (k ∈ lines →
              ∃ vk, keys self !! k = Some vk ∧
                    HexEncoder_decode (encode k) = Ret (key_bytes vk) ∧
                    length (key_bytes vk) = 32%nat ∧
                    String.length k = 64%nat) ∧
           (k ∉ lines → keys self !! k = None)
  | Raise e => ∃ k, k ∈ lines ∧ VerifyKey_init (encode k) = Raise e
  end.
Proof.
  unfold WorkerAuthenticator_init.
  destruct (load_keys lines) as [m|e] eqn:Hload.
  - pose proof (load_keys_Ret lines m Hload) as Hm. simpl.
    split_and!; [done| |].
    + intros Hblank. destruct (proj1 (Hm ""%string) Hblank) as (vk & Hvk & _).
      by vm_compute in Hvk.
    + intros k. split; [|apply Hm].
      intros Hk. destruct (proj1 (Hm k) Hk) as (vk & Hvk & Hlook).
      exists vk. split; [done|]. by apply VerifyKey_init_Ret.
  - by apply load_keys_Raise.
Qed.

Lemma hex_byte (b : byte) :
  hex_value (byte_of_ascii (hex_digit (byte_to_Z b / 16))) =
    Some (byte_to_Z b / 16) ∧
  hex_value (byte_of_ascii (hex_digit (byte_to_Z b mod 16))) =
    Some (byte_to_Z b mod 16) ∧
  byte_of_Z (16 * (byte_to_Z b / 16) + byte_to_Z b mod 16) = b.
Proof. destruct b; vm_compute; done. Qed.

Lemma unhex_pairs_hexlify (bs : bytes) :
  unhex_pairs (encode (hexlify bs)) = Some bs.
Proof.
  unfold encode, list_byte_of_string.
  induction bs as [|b bs IH]; [done|].
  destruct (hex_byte b) as (Hhi & Hlo & Hb).
  cbn [hexlify list_ascii_of_string map unhex_pairs].
  by rewrite Hhi, Hlo, IH, Hb.
Qed.

Lemma hexlify_even (bs : bytes) :
  Nat.odd (length (encode (hexlify bs))) = false.
Proof.
  unfold encode, list_byte_of_string.
  induction bs as [|b bs IH]; [done|].
  cbn [hexlify list_ascii_of_string map length]. by rewrite Nat.odd_succ_succ.
Qed.

(** X25.  A key file of one line that is the lower-case hexadecimal of 32
    bytes is accepted, and gives the authenticator with that one key,
    holding those bytes. *)
Theorem key_file_of_one_key (bs : bytes) :
  length bs = 32%nat →
  WorkerAuthenticator_init (Some [hexlify bs]) =
    Ret {| authenticate := true;
           keys := {[ hexlify bs := {| key_bytes := bs |} ]} |}.
Proof.
  intros Hlen.
  unfold WorkerAuthenticator_init, load_keys, VerifyKey_init, HexEncoder_decode.
  rewrite hexlify_even, unhex_pairs_hexlify.
  by rewrite (bool_decide_eq_true_2 _ Hlen), insert_empty.
Qed.

End Behaviour.

(** ** The further properties on the application of [Demo] *)

(** X4: the update of the active "w1" invokes the callback, and "w1" is
    listed and active. *)
Lemma callback_only_for_active_witness :
  "w1" ∈ worker_list (server Demo.active_w1) ∧
  "w1" ∈ active_workers (server Demo.active_w1).
Proof.
  apply (callback_only_for_active
           (ReceiveWorkerUpdate "w1" (Demo.upload Demo.empty_stream))
           Demo.active_w1 (ReceiveWorkerUpdateCallback "w1" []) []).
  vm_compute. reflexivity.
Defined.

(** X5: "w1" added as active, then its update. *)
Lemma update_after_join_witness :
  "w1" ∈ active_from_calls [RegisterWorkerCallback "w1"].
Proof.
  apply (update_after_join {| authenticate := false; keys := ∅ |} O
           [AdminAddWorker (Demo.add_body "w1" true);
            ReceiveWorkerUpdate "w1" (Demo.upload Demo.empty_stream)]
           [RegisterWorkerCallback "w1"] [] "w1" []).
  vm_compute. reflexivity.
Defined.

(** X7: the update of the active "w1" reaches the application. *)
Lemma receive_worker_update_active_witness :
  receive_worker_update "w1" (Demo.upload Demo.empty_stream) Demo.active_w1 =
    (Ret (PStr "Worker update received"),
     {| server := server Demo.active_w1; app := 1%nat;
        calls := calls Demo.active_w1 ++ [ReceiveWorkerUpdateCallback "w1" []] |}).
Proof.
  rewrite (receive_worker_update_active Demo.active_w1 "w1"
             (Demo.upload Demo.empty_stream) Demo.empty_stream []).
  - reflexivity.
  - by_computation.
  - by_computation.
  - vm_compute. reflexivity.
  - reflexivity.
Defined.

(** X8: the status and the model for the active "w1". *)
Lemma query_active_witness :
  fst (query_global_model_status (Demo.query_body "w1") Demo.active_w1) =
    Ret (PStr "0") ∧
  fst (return_global_model (Demo.query_body "w1") Demo.active_w1) =
    Ret (PBytes Demo.empty_stream).
Proof.
  destruct (query_active Demo.active_w1 "w1" (Demo.query_body "w1")) as [Hq Hm].
  - by_computation.
  - by_computation.
  - vm_compute. reflexivity.
  - rewrite Hq, Hm. split; reflexivity.
Defined.

(** X9: an identity nobody has heard of. *)
Lemma relay_refuses_unknown_witness :
  query_global_model_status (Demo.query_body "ghost") Demo.open_world =
    (Ret (PStr UNREGISTERED_WORKER), Demo.open_world) ∧
  receive_worker_update "ghost" (Demo.upload Demo.empty_stream) Demo.open_world =
    (Ret (PStr UNREGISTERED_WORKER), Demo.open_world).
Proof.
  destruct (relay_refuses_unknown Demo.open_world "ghost" (JStr "ghost")
              (Demo.query_body "ghost") (Demo.upload Demo.empty_stream))
    as (Hq & _ & _ & Hu).
  - vm_compute. reflexivity.
  - intros j _. apply not_elem_of_nil.
  - apply not_elem_of_nil.
  - split; [exact Hq|].
    apply (Hu Demo.empty_stream []); vm_compute; reflexivity.
Defined.

(** X10: the credulous libsodium says yes, and the key was listed. *)
Lemma authenticate_worker_sound_witness :
  authenticate Demo.authenticator = true ∧
  ∃ k key s signed message,
    JStr Demo.K = JStr k ∧ keys Demo.authenticator !! k = Some key ∧
    JStr "00" = JStr s ∧
    HexEncoder_decode (encode s) = Ret signed ∧
    crypto_sign_open (Libraries := Demo.credulous) signed (key_bytes key) =
      Some message.
Proof.
  apply (authenticate_worker_sound (H := Demo.credulous) Demo.authenticator
           (JStr Demo.K) (JStr "00") AUTHENTICATED).
  vm_compute. reflexivity.
Defined.


(** X12: the key is listed, the worker added, and the credulous libsodium
    accepts. *)
Lemma register_worker_admits_witness :
  fst (register_worker (H := Demo.credulous) Demo.now Demo.registration
         Demo.provisioned) = Ret (PStr Demo.K) ∧
  Demo.K ∈ active_workers
             (server (snd (register_worker (H := Demo.credulous) Demo.now
                             Demo.registration Demo.provisioned))).
Proof.
  rewrite (register_worker_admits (H := Demo.credulous) Demo.now
             Demo.registration Demo.provisioned Demo.K "00" Demo.verify_key
             [x00] []).
  - split; [reflexivity|]. simpl.
    apply elem_of_union. left. by apply elem_of_singleton.
  - reflexivity.
  - vm_compute. reflexivity.
  - vm_compute. reflexivity.
  - vm_compute. reflexivity.
  - vm_compute. reflexivity.
  - reflexivity.
  - by_computation.
Defined.

(** X13: a registration with the empty object for its body, and one
    without a JSON body. *)
Lemma register_worker_missing_field_witness :
  register_worker_json Demo.now (JObject ∅) Demo.open_world =
    (Raise (KeyError PUBLIC_KEY_STR), Demo.open_world) ∧
  ∃ msg, register_worker_json Demo.now (JValue JNull) Demo.open_world =
           (Raise (TypeError msg), Demo.open_world).
Proof.
  destruct (register_worker_missing_field Demo.now (JObject ∅) Demo.open_world)
    as (Hkey & _).
  destruct (register_worker_missing_field Demo.now (JValue JNull) Demo.open_world)
    as (_ & _ & Htype & _).
  split.
  - apply (Hkey ∅); reflexivity.
  - destruct Htype as (msg & _ & Hmsg); [by intros d|].
    by exists msg.
Defined.

(** X14: "w2" added as active after "w1". *)
Lemma admin_add_worker_adds_witness :
  worker_list (server (snd (admin_add_worker (Demo.add_body "w2" true)
                              Demo.active_w1))) = ["w1"; "w2"] ∧
  calls (snd (admin_add_worker (Demo.add_body "w2" true) Demo.active_w1)) =
    [RegisterWorkerCallback "w1"; RegisterWorkerCallback "w2"].
Proof.
  destruct (admin_add_worker_adds (Demo.add_body "w2" true) Demo.active_w1 "w2")
    as (Hl & Hactive & _).
  - vm_compute. reflexivity.
  - discriminate.
  - by_computation.
  - destruct Hactive as (_ & Hcalls & _).
    + exists (JBool true). split; [vm_compute|]; reflexivity.
    + rewrite Hl, Hcalls. split; reflexivity.
Defined.

(** X15: "w1" is listed already. *)
Lemma admin_add_worker_refuses_witness :
  admin_add_worker (Demo.add_body "w1" true) Demo.active_w1 =
    (Ret (error_payload "Worker w1 already exists"), Demo.active_w1).
Proof.
  destruct (admin_add_worker_refuses (Demo.add_body "w1" true) Demo.active_w1
              (JStr "w1")) as [_ Hlisted].
  - vm_compute. reflexivity.
  - apply (Hlisted "w1"); [reflexivity|discriminate|by_computation].
Defined.

(** X16: "w2" added twice. *)
Lemma admin_add_worker_twice_witness :
  fst (admin_add_worker (Demo.add_body "w2" false)
         (snd (admin_add_worker (Demo.add_body "w2" false) Demo.active_w1))) =
    Ret (error_payload "Worker w2 already exists").
Proof.
  rewrite (admin_add_worker_twice (Demo.add_body "w2" false)
             (Demo.add_body "w2" false) Demo.active_w1 "w2").
  - reflexivity.
  - vm_compute. reflexivity.
  - vm_compute. reflexivity.
  - discriminate.
Defined.

(** X17: "w2" added as active, then deleted. *)
Lemma admin_add_then_delete_witness :
  server (snd (admin_delete_worker "w2"
                 (snd (admin_add_worker (Demo.add_body "w2" true)
                         Demo.active_w1)))) = server Demo.active_w1.
Proof.
  apply (admin_add_then_delete (Demo.add_body "w2" true) Demo.active_w1 "w2").
  - vm_compute. reflexivity.
  - discriminate.
  - by_computation.
  - by_computation.
Defined.


(** X19: the number 1 is not a status, and "ghost" is not a worker. *)
Lemma admin_set_worker_status_refuses_witness :
  admin_set_worker_status "w1" {[ "active" := JInt 1 ]} Demo.active_w1 =
    (Ret (error_payload "Key 'active' should be a boolean: 1"), Demo.active_w1) ∧
  admin_set_worker_status "ghost" (Demo.status_body true) Demo.active_w1 =
    (Ret (error_payload "Unknown worker: ghost"), Demo.active_w1).
Proof.
  split.
  - apply (admin_set_worker_status_refuses {[ "active" := JInt 1 ]}
             Demo.active_w1 "w1" (JInt 1)).
    + vm_compute. reflexivity.
    + discriminate.
  - apply (admin_set_worker_status_refuses (Demo.status_body true)
             Demo.active_w1 "ghost" JNull) with (b := true).
    + vm_compute. reflexivity.
    + by_computation.
Defined.

(** X21: the listing after "w2" was added, inactive. *)
Lemma admin_list_workers_after_add_witness :
  fst (admin_list_workers
         (snd (admin_add_worker (Demo.add_body "w2" false) Demo.active_w1))) =
    Ret (PJson (JList [[("worker_id", JStr "w1"); ("active", JBool true)];
                       [("worker_id", JStr "w2"); ("active", JBool false)]])).
Proof.
  rewrite (admin_list_workers_after_add (Demo.add_body "w2" false)
             Demo.active_w1 "w2").
  - vm_compute. reflexivity.
  - vm_compute. reflexivity.
  - discriminate.
  - by_computation.
  - by_computation.
Defined.

(** X22: a deletion with credentials, in an environment without any. *)
Lemma admin_route_denied_witness :
  start_server ∅ (Some ("admin", "secret")) (AdminDeleteWorker "w1")
    Demo.active_w1 =
    (Ret (HTTPError 401 "Access denied"), Demo.active_w1).
Proof.
  apply (admin_route_denied ∅ (Some ("admin", "secret"))
           (AdminDeleteWorker "w1") Demo.active_w1); reflexivity.
Defined.

(** X23: a registration and an addition, in an environment with the user
    name only. *)
Lemma unconfigured_admin_inert_witness :
  serve {[ "ADMIN_USERNAME" := "admin" ]}
    [(None, RegisterWorker Demo.now Demo.registration);
     (Some ("admin", ""), AdminAddWorker (Demo.add_body Demo.K true))]
    Demo.restricted_world = Demo.restricted_world.
Proof.
  apply (unconfigured_admin_inert {[ "ADMIN_USERNAME" := "admin" ]}
           Demo.authenticator O).
  - reflexivity.
  - right. vm_compute. reflexivity.
Defined.

(** X24: the key file of [Demo]. *)
Lemma key_file_loaded_witness :
  ∃ vk, keys Demo.authenticator !! Demo.K = Some vk ∧
        length (key_bytes vk) = 32%nat ∧
        String.length Demo.K = 64%nat.
Proof.
  pose proof (key_file_loaded Demo.key_file) as Hloaded.
  assert (Hinit : WorkerAuthenticator_init (Some Demo.key_file) =
                  Ret Demo.authenticator) by (vm_compute; reflexivity).
  rewrite Hinit in Hloaded. destruct Hloaded as (_ & _ & Hkeys).
  destruct (proj1 (Hkeys Demo.K)) as (vk & Hvk & _ & Hlen & Hk).
  - by_computation.
  - exists vk. split_and!; [exact Hvk|exact Hlen|exact Hk].
Defined.

(** X25: the key of [Demo], spelt in hexadecimal. *)
Lemma key_file_of_one_key_witness :
  WorkerAuthenticator_init (Some [hexlify (key_bytes Demo.verify_key)]) =
    Ret {| authenticate := true;
           keys := {[ hexlify (key_bytes Demo.verify_key) := Demo.verify_key ]} |}.
Proof.
  apply (key_file_of_one_key (key_bytes Demo.verify_key)). reflexivity.
Defined.
